(** * Chain elements of sdk-vpp: [up.upClient] and [peer.wireguardPeerServer]

    A shallow embedding of [pkg/networkservice/up/client.go]: the client
    element that 'up's an interface, with its guarded initialization, and the
    wireguard peer server element; and the properties of their Request/Close
    protocol.

    The functions the two elements call but do not define ([initFunc], [up],
    [createPeer], [delPeer], the continuation [next.Client(ctx)] /
    [next.Server(ctx)]) are taken as arbitrary transformers of an abstract
    [World] that return what Go returns: a nil-able error, or a nil-able
    pointer and a nil-able error.  Every call of one of them is recorded in a
    trace, so that the order and the arguments of the calls can be stated.

    The model is sequential: one method runs at a time.  The mutex of the
    upClient is a flag, and locking a held mutex never returns.  Panics are
    not modelled. *)

From Stdlib Require Import ZArith List String Bool Lia.
Import ListNotations.

(** ** context.Context *)

(** A context is either one handed in by a caller, or the one produced by the
    resolver that [postpone.ContextWithValues] returned for a context: same
    values, cancellation of its own. *)
Inductive context : Type :=
| Live (token : nat)
| Postponed (captured : context).

Fixpoint context_eqb (a b : context) : bool :=
  match a, b with
  | Live n, Live m => Nat.eqb n m
  | Postponed a', Postponed b' => context_eqb a' b'
  | _, _ => false
  end.

(** ** error values and github.com/pkg/errors *)

(** A non-nil Go [error]: either an error as a collaborator made it, or an
    error annotated by [errors.Wrapf].  A Go value of type [error] that may be
    nil is an [option error]. *)
Inductive error : Type :=
| errorString (s : string)
| withMessage (cause : error) (msg : string).

(** [err.Error()]: an annotated error prints its message, a colon and its
    cause. *)
Fixpoint Error (e : error) : string :=
  match e with
  | errorString s => s
  | withMessage cause msg => (msg ++ ": " ++ Error cause)%string
  end.

(** [errors.Cause(err)]: the innermost error. *)
Fixpoint Cause (e : error) : error :=
  match e with
  | errorString _ => e
  | withMessage cause _ => Cause cause
  end.

(** [errors.Wrapf(err, format, args...)], the message already formatted;
    wrapping nil gives nil. *)
Definition Wrapf (err : option error) (msg : string) : option error :=
  match err with
  | None => None
  | Some e => Some (withMessage e msg)
  end.

(** [fmt.Sprintf("connection closed with error: %s", closeErr.Error())] *)
Definition closedWithError (closeErr : error) : string :=
  ("connection closed with error: " ++ Error closeErr)%string.

(** [s] occurs in [t] as a suffix / somewhere. *)
Fixpoint is_suffix (s t : string) : bool :=
  if String.eqb s t then true
  else match t with
       | EmptyString => false
       | String _ t' => is_suffix s t'
       end.

Fixpoint is_substring (s t : string) : bool :=
  if String.prefix s t then true
  else match t with
       | EmptyString => false
       | String _ t' => is_substring s t'
       end.

(** ** Values passed to [metadata.IsClient] *)

(** The dynamic type of an element, and an [interface{}] holding a pointer to
    an element: its dynamic type and the address it points to. *)
Inductive gotype : Type := ptr_upClient | ptr_wireguardPeerServer.

Record iface : Type := mkIface { dyn_type : gotype; addr : nat }.

(** [*empty.Empty] *)
Definition Empty : Type := unit.

(** ** The collaborators *)

(** The types the elements only pass around.  A [Connection] is what a
    non-nil [*networkservice.Connection] points to (a nil-able pointer is an
    [option Connection]); what collaborators read or write through such a
    pointer is part of the [World]. *)
Class Types : Type := {
  NetworkServiceRequest : Type;
  Connection : Type;
  CallOption : Type;
  VppConn : Type;
  ifIndexFunc : Type;
  World : Type
}.

Class Collaborators `{Types} : Type := {
  (** [initFunc(ctx, vppConn)] *)
  initFunc : context -> VppConn -> World -> option error * World;
  (** [up(ctx, vppConn, loadIfIndex, isClient)] *)
  up : context -> VppConn -> ifIndexFunc -> bool -> World -> option error * World;
  (** [createPeer(ctx, conn, vppConn, isClient)] *)
  createPeer : context -> option Connection -> VppConn -> bool -> World -> option error * World;
  (** [delPeer(ctx, conn, vppConn, isClient)] *)
  delPeer : context -> option Connection -> VppConn -> bool -> World -> option error * World;
  (** [next.Client(ctx).Request(ctx, request, opts...)]: the first argument is
      the context the continuation is looked up in. *)
  nextClientRequest : context -> context -> NetworkServiceRequest -> list CallOption ->
                      World -> (option Connection * option error) * World;
  (** [next.Client(ctx).Close(ctx, conn, opts...)] *)
  nextClientClose : context -> context -> option Connection -> list CallOption ->
                    World -> (option Empty * option error) * World;
  (** [next.Server(ctx).Request(ctx, request)] *)
  nextServerRequest : context -> context -> NetworkServiceRequest ->
                      World -> (option Connection * option error) * World;
  (** [next.Server(ctx).Close(ctx, conn)] *)
  nextServerClose : context -> context -> option Connection ->
                    World -> (option Empty * option error) * World;
  (** [metadata.IsClient(in)]: decided by the value it is given, an
      [interface{}] holding the element, and nothing else. *)
  IsClient : iface -> bool
}.

Section Elements.

Context `{C : Collaborators}.

(** ** Calls observed from outside an element *)

Inductive event : Type :=
| EvInitFunc (ctx : context) (vpp : VppConn)
| EvContextWithValues (ctx : context)
| EvNextRequest (lookup ctx : context) (request : NetworkServiceRequest) (opts : list CallOption)
| EvUp (ctx : context) (vpp : VppConn) (load : ifIndexFunc) (isClient : bool)
| EvCreatePeer (ctx : context) (conn : option Connection) (vpp : VppConn) (isClient : bool)
| EvPostponeCtxFunc (closeCtx : context)
| EvNextClose (lookup ctx : context) (conn : option Connection) (opts : list CallOption)
| EvDelPeer (ctx : context) (conn : option Connection) (vpp : VppConn) (isClient : bool)
| EvCancelClose (closeCtx : context).

(** ** The machine an element method runs on *)

Section Runtime.

Variable Elem : Type.

(** [this]: the address of the receiver; [elem]: the struct stored there. *)
Record machine : Type := mkMachine {
  this : nat;
  elem : Elem;
  world : World;
  trace : list event
}.

(** A method body: from a machine to a result and the machine after it, or to
    nothing when the call never returns (it waits for a mutex forever). *)
Definition M (A : Type) : Type := machine -> option (A * machine).

Definition ret {A} (a : A) : M A := fun m => Some (a, m).

Definition bind {A B} (c : M A) (k : A -> M B) : M B :=
  fun m => match c m with
           | Some (a, m') => k a m'
           | None => None
           end.

(** Read a field of the receiver. *)
Definition field {A} (f : Elem -> A) : M A := fun m => Some (f (elem m), m).

(** The address of the receiver. *)
Definition self : M nat := fun m => Some (this m, m).

(** Write the receiver. *)
Definition update (f : Elem -> Elem) : M unit :=
  fun m => Some (tt, mkMachine (this m) (f (elem m)) (world m) (trace m)).

(** Never returns. *)
Definition blocked {A} : M A := fun _ => None.

(** A call out of the element: recorded, then run on the world. *)
Definition call {A} (e : event) (f : World -> A * World) : M A :=
  fun m => let (a, w) := f (world m) in
           Some (a, mkMachine (this m) (elem m) w (trace m ++ [e])).

(** [defer d(); body]: [d] runs when [body] has its return values. *)
Definition defer {A} (d : M unit) (body : M A) : M A :=
  bind body (fun r => bind d (fun _ => ret r)).

End Runtime.

Arguments mkMachine {Elem}.
Arguments this {Elem}.
Arguments elem {Elem}.
Arguments world {Elem}.
Arguments trace {Elem}.
Arguments ret {Elem A}.
Arguments bind {Elem A B}.
Arguments field {Elem A}.
Arguments self {Elem}.
Arguments update {Elem}.
Arguments blocked {Elem A}.
Arguments call {Elem A}.
Arguments defer {Elem A}.

Notation "x <- c ;; k" := (bind c (fun x => k))
  (at level 61, c at next level, right associativity).
Notation "' pat <- c ;; k" := (bind c (fun x => match x with pat => k end))
  (at level 61, pat pattern, c at next level, right associativity).
Notation "c ;; k" := (bind c (fun _ => k))
  (at level 61, right associativity).

(** [postpone.ContextWithValues(ctx)]: captures [ctx] now; the function it
    returns makes, when called, the postponed context and its cancel
    function. *)
Definition ContextWithValues {Elem} (ctx : context)
  : M Elem (unit -> M Elem (context * M Elem unit)) :=
  call (EvContextWithValues ctx) (fun w => (tt, w)) ;;
  ret (fun _ : unit =>
         call (EvPostponeCtxFunc (Postponed ctx)) (fun w => (tt, w)) ;;
         ret (Postponed ctx,
              call (EvCancelClose (Postponed ctx)) (fun w => (tt, w)))).

(** ** package up: upClient *)

Record upClient : Type := mkUpClient {
  ctx : context;
  vppConn : VppConn;
  loadIfIndex : ifIndexFunc;
  inited : Z;
  initMutex : bool   (* true: held *)
}.

(** The [&upClient{ctx, vppConn, loadIfIndex}] of [NewClient]: latch 0, mutex
    free. *)
Definition newUpClient (c : context) (v : VppConn) (l : ifIndexFunc) : upClient :=
  mkUpClient c v l 0%Z false.

Definition LoadUint32_inited : M upClient Z := field inited.

Definition StoreUint32_inited (v : Z) : M upClient unit :=
  update (fun u => mkUpClient (ctx u) (vppConn u) (loadIfIndex u) v (initMutex u)).

Definition initMutex_Lock : M upClient unit :=
  held <- field initMutex ;;
  if held then blocked
  else update (fun u => mkUpClient (ctx u) (vppConn u) (loadIfIndex u) (inited u) true).

Definition initMutex_Unlock : M upClient unit :=
  update (fun u => mkUpClient (ctx u) (vppConn u) (loadIfIndex u) (inited u) false).

Definition upClient_init (ctx : context) : M upClient (option error) :=
  i <- LoadUint32_inited ;;
  if (0 <? i)%Z then ret None
  else
    initMutex_Lock ;;
    defer initMutex_Unlock
      (i <- LoadUint32_inited ;;
       if (0 <? i)%Z then ret None
       else
         vpp <- field vppConn ;;
         err <- call (EvInitFunc ctx vpp) (initFunc ctx vpp) ;;
         match err with
         | None => StoreUint32_inited 1%Z
         | Some _ => ret tt
         end ;;
         ret err).

Definition upClient_Close (ctx : context) (conn : option Connection) (opts : list CallOption)
  : M upClient (option Empty * option error) :=
  call (EvNextClose ctx ctx conn opts) (nextClientClose ctx ctx conn opts).

Definition upClient_Request (ctx : context) (request : NetworkServiceRequest)
  (opts : list CallOption) : M upClient (option Connection * option error) :=
  err <- upClient_init ctx ;;
  match err with
  | Some _ => ret (None, err)
  | None =>
    postponeCtxFunc <- ContextWithValues ctx ;;
    '(conn, err) <- call (EvNextRequest ctx ctx request opts)
                         (nextClientRequest ctx ctx request opts) ;;
    match err with
    | Some _ => ret (None, err)
    | None =>
      vpp <- field vppConn ;;
      load <- field loadIfIndex ;;
      u <- self ;;
      let isClient := IsClient (mkIface ptr_upClient u) in
      err <- call (EvUp ctx vpp load isClient) (up ctx vpp load isClient) ;;
      match err with
      | Some _ =>
        '(closeCtx, cancelClose) <- postponeCtxFunc tt ;;
        defer cancelClose
          ('(_, closeErr) <- upClient_Close closeCtx conn opts ;;
           let err := match closeErr with
                      | Some ce => Wrapf err (closedWithError ce)
                      | None => err
                      end in
           ret (None, err))
      | None => ret (conn, None)
      end
    end
  end.

(** ** package peer: wireguardPeerServer *)

Record wireguardPeerServer : Type := mkWireguardPeerServer {
  peer_vppConn : VppConn
}.

Definition NewServer (v : VppConn) : wireguardPeerServer := mkWireguardPeerServer v.

Definition wireguardPeerServer_Close (ctx : context) (conn : option Connection)
  : M wireguardPeerServer (option Empty * option error) :=
  vpp <- field peer_vppConn ;;
  w <- self ;;
  let isClient := IsClient (mkIface ptr_wireguardPeerServer w) in
  _ <- call (EvDelPeer ctx conn vpp isClient) (delPeer ctx conn vpp isClient) ;;
  call (EvNextClose ctx ctx conn []) (nextServerClose ctx ctx conn).

Definition wireguardPeerServer_Request (ctx : context) (request : NetworkServiceRequest)
  : M wireguardPeerServer (option Connection * option error) :=
  postponeCtxFunc <- ContextWithValues ctx ;;
  '(conn, err) <- call (EvNextRequest ctx ctx request [])
                       (nextServerRequest ctx ctx request) ;;
  match err with
  | Some _ => ret (None, err)
  | None =>
    vpp <- field peer_vppConn ;;
    w <- self ;;
    let isClient := IsClient (mkIface ptr_wireguardPeerServer w) in
    err <- call (EvCreatePeer ctx conn vpp isClient) (createPeer ctx conn vpp isClient) ;;
    match err with
    | Some _ =>
      '(closeCtx, cancelClose) <- postponeCtxFunc tt ;;
      defer cancelClose
        ('(_, closeErr) <- wireguardPeerServer_Close closeCtx conn ;;
         let err := match closeErr with
                    | Some ce => Wrapf err (closedWithError ce)
                    | None => err
                    end in
         ret (None, err))
    | None => ret (conn, None)
    end
  end.

(** ** Reading traces *)

(** What a call added to the trace. *)
Definition new_events {Elem} (m m' : machine Elem) : list event :=
  skipn (List.length (trace m)) (trace m').

(** Calls that can return an error. *)
Definition failable (e : event) : bool :=
  match e with
  | EvInitFunc _ _ | EvNextRequest _ _ _ _ | EvUp _ _ _ _ | EvCreatePeer _ _ _ _
  | EvNextClose _ _ _ _ | EvDelPeer _ _ _ _ => true
  | EvContextWithValues _ | EvPostponeCtxFunc _ | EvCancelClose _ => false
  end.

Definition is_capture_of (ctx : context) (e : event) : bool :=
  match e with
  | EvContextWithValues c => context_eqb c ctx
  | _ => false
  end.

(** The capture of [ctx] is in the list and no failable call stands before
    it. *)
Fixpoint captured_first (ctx : context) (tr : list event) : bool :=
  match tr with
  | [] => false
  | e :: tr' =>
    if is_capture_of ctx e then true
    else if failable e then false
    else captured_first ctx tr'
  end.

(** No failable call before the first capture of [ctx], if there is one. *)
Fixpoint no_failable_before_capture (ctx : context) (tr : list event) : bool :=
  match tr with
  | [] => true
  | e :: tr' =>
    if is_capture_of ctx e then true
    else if failable e then false
    else no_failable_before_capture ctx tr'
  end.

Definition is_continuation_call (e : event) : bool :=
  match e with
  | EvNextRequest _ _ _ _ | EvNextClose _ _ _ _ => true
  | _ => false
  end.

(** The element's setup action, its undo action and the calls of a
    compensating Close. *)
Definition is_setup_or_close (e : event) : bool :=
  match e with
  | EvUp _ _ _ _ | EvCreatePeer _ _ _ _ | EvDelPeer _ _ _ _ | EvNextClose _ _ _ _
  | EvPostponeCtxFunc _ | EvCancelClose _ => true
  | _ => false
  end.

(** The error a Request returns after its setup action failed with [e] and
    its Close returned [closeErr]. *)
Definition rollbackError (e : error) (closeErr : option error) : error :=
  match closeErr with
  | Some ce => withMessage e (closedWithError ce)
  | None => e
  end.

(** A run of init calls, one per context, on one upClient. *)
Fixpoint init_seq (ctxs : list context) : M upClient (list (option error)) :=
  match ctxs with
  | [] => ret []
  | c :: ctxs' =>
    r <- upClient_init c ;;
    rs <- init_seq ctxs' ;;
    ret (r :: rs)
  end.

(** Calls a caller can make on a wireguardPeerServer, and a run of them. *)
Inductive peer_op : Type :=
| OpRequest (ctx : context) (request : NetworkServiceRequest)
| OpClose (ctx : context) (conn : option Connection).

Fixpoint peer_run (ops : list peer_op) : M wireguardPeerServer unit :=
  match ops with
  | [] => ret tt
  | OpRequest ctx request :: ops' =>
    _ <- wireguardPeerServer_Request ctx request ;; peer_run ops'
  | OpClose ctx conn :: ops' =>
    _ <- wireguardPeerServer_Close ctx conn ;; peer_run ops'
  end.

(** The directionality a peer call was given. *)
Definition peer_direction (e : event) : option bool :=
  match e with
  | EvCreatePeer _ _ _ b | EvDelPeer _ _ _ b => Some b
  | _ => None
  end.

(** What a Request adds to the trace: on entering the continuation, and on
    rolling back after its setup action failed. *)
Definition entered c request opts : list event :=
  [EvContextWithValues c; EvNextRequest c c request opts].

Definition upClient_rolled_back c conn opts : list event :=
  [EvPostponeCtxFunc (Postponed c);
   EvNextClose (Postponed c) (Postponed c) conn opts;
   EvCancelClose (Postponed c)].

Definition peer_rolled_back c conn vpp b : list event :=
  [EvPostponeCtxFunc (Postponed c);
   EvDelPeer (Postponed c) conn vpp b;
   EvNextClose (Postponed c) (Postponed c) conn [];
   EvCancelClose (Postponed c)].

(** A Request result is a Connection with a nil error, or a nil Connection
    with an error. *)
Definition connection_xor_error (r : option Connection * option error) : bool :=
  match r with
  | (Some _, None) | (None, Some _) => true
  | _ => false
  end.

(** Every peer call in the list was given directionality [b]. *)
Definition directions_are (b : bool) (l : list event) : bool :=
  forallb (fun e => match peer_direction e with
                    | Some b' => Bool.eqb b' b
                    | None => true
                    end) l.

(** ** Runs of calls, and what to count in a trace *)

(** Calls a caller can make on an upClient, and a run of them. *)
Inductive up_op : Type :=
| OpUpRequest (ctx : context) (request : NetworkServiceRequest) (opts : list CallOption)
| OpUpClose (ctx : context) (conn : option Connection) (opts : list CallOption).

Fixpoint up_run (ops : list up_op) : M upClient unit :=
  match ops with
  | [] => ret tt
  | OpUpRequest ctx request opts :: ops' =>
    _ <- upClient_Request ctx request opts ;; up_run ops'
  | OpUpClose ctx conn opts :: ops' =>
    _ <- upClient_Close ctx conn opts ;; up_run ops'
  end.

Definition is_up_request (op : up_op) : bool :=
  match op with OpUpRequest _ _ _ => true | OpUpClose _ _ _ => false end.

Definition is_peer_request (op : peer_op) : bool :=
  match op with OpRequest _ _ => true | OpClose _ _ => false end.

Definition is_initFunc (e : event) : bool :=
  match e with EvInitFunc _ _ => true | _ => false end.

Definition is_next_request (e : event) : bool :=
  match e with EvNextRequest _ _ _ _ => true | _ => false end.

Definition is_postponeCtxFunc (e : event) : bool :=
  match e with EvPostponeCtxFunc _ => true | _ => false end.

Definition is_cancelClose (e : event) : bool :=
  match e with EvCancelClose _ => true | _ => false end.

(** The calls a Close makes, and those that prepare and end a compensating
    Close. *)
Definition is_close_call (e : event) : bool :=
  match e with
  | EvNextClose _ _ _ _ | EvDelPeer _ _ _ _ | EvPostponeCtxFunc _ | EvCancelClose _ => true
  | _ => false
  end.

Definition is_createPeer (e : event) : bool :=
  match e with EvCreatePeer _ _ _ _ => true | _ => false end.

Definition is_delPeer (e : event) : bool :=
  match e with EvDelPeer _ _ _ _ => true | _ => false end.

Definition is_next_close (e : event) : bool :=
  match e with EvNextClose _ _ _ _ => true | _ => false end.

Definition is_up (e : event) : bool :=
  match e with EvUp _ _ _ _ => true | _ => false end.

(** The vpp connection a peer call was given. *)
Definition peer_vpp (e : event) : option VppConn :=
  match e with
  | EvCreatePeer _ _ v _ | EvDelPeer _ _ v _ => Some v
  | _ => None
  end.

Definition count_events (p : event -> bool) (l : list event) : nat :=
  List.length (filter p l).

(** The contexts a call was given. *)
Definition event_contexts (e : event) : list context :=
  match e with
  | EvInitFunc c _ | EvContextWithValues c | EvUp c _ _ _ | EvCreatePeer c _ _ _
  | EvPostponeCtxFunc c | EvDelPeer c _ _ _ | EvCancelClose c => [c]
  | EvNextRequest l c _ _ | EvNextClose l c _ _ => [l; c]
  end.

(** Every context the call was given is [c]. *)
Definition uses_only (c : context) (e : event) : bool :=
  forallb (fun x => context_eqb x c) (event_contexts e).

(** The ways through a Request, and the calls made on each: [ran] tells
    whether the guarded initialization ran initFunc. *)
Inductive path : Type := InitFailed | ContinuationFailed | Established | RolledBack.

Definition upClient_path_events (p : path) (ran : bool) c request opts vpp load b conn
  : list event :=
  (if ran then [EvInitFunc c vpp] else []) ++
  match p with
  | InitFailed => []
  | ContinuationFailed => entered c request opts
  | Established => entered c request opts ++ [EvUp c vpp load b]
  | RolledBack =>
    entered c request opts ++ [EvUp c vpp load b] ++ upClient_rolled_back c conn opts
  end.

Definition peer_path_events (p : path) c request vpp b conn : list event :=
  match p with
  | InitFailed => []
  | ContinuationFailed => entered c request []
  | Established => entered c request [] ++ [EvCreatePeer c conn vpp b]
  | RolledBack =>
    entered c request [] ++ [EvCreatePeer c conn vpp b] ++ peer_rolled_back c conn vpp b
  end.

End Elements.

Arguments mkMachine {H Elem}.
Arguments this {H Elem}.
Arguments elem {H Elem}.
Arguments world {H Elem}.
Arguments trace {H Elem}.
Arguments ret {H Elem A}.
Arguments bind {H Elem A B}.
Arguments field {H Elem A}.
Arguments self {H Elem}.
Arguments update {H Elem}.
Arguments blocked {H Elem A}.
Arguments call {H Elem A}.
Arguments defer {H Elem A}.

(** The same collaborators, except that delPeer returns the error [f] says;
    what delPeer does to the world is kept. *)
Definition with_delPeer_error `{C : Collaborators}
  (f : context -> option Connection -> VppConn -> bool -> World -> option error)
  : Collaborators := {|
  initFunc := initFunc;
  up := up;
  createPeer := createPeer;
  delPeer c conn vpp b w := (f c conn vpp b w, snd (delPeer c conn vpp b w));
  nextClientRequest := nextClientRequest;
  nextClientClose := nextClientClose;
  nextServerRequest := nextServerRequest;
  nextServerClose := nextServerClose;
  IsClient := IsClient
|}.

(** * A scripted world *)

(** Collaborators that return what a script says, over a world that counts
    the calls made. *)
#[local] Instance scriptedTypes : Types := {|
  NetworkServiceRequest := string;
  Connection := string;
  CallOption := unit;
  VppConn := nat;
  ifIndexFunc := unit;
  World := nat
|}.

Definition scripted (initE upE peerE delE : option error)
  (requested : option string * option error) (closeE : option error)
  : Collaborators := {|
  initFunc _ _ w := (initE, S w);
  up _ _ _ _ w := (upE, S w);
  createPeer _ _ _ _ w := (peerE, S w);
  delPeer _ _ _ _ w := (delE, S w);
  nextClientRequest _ _ _ _ w := (requested, S w);
  nextClientClose _ _ _ _ w := ((Some tt, closeE), S w);
  nextServerRequest _ _ _ w := (requested, S w);
  nextServerClose _ _ _ w := ((Some tt, closeE), S w);
  IsClient i := match dyn_type i with
                | ptr_upClient => true
                | ptr_wireguardPeerServer => false
                end
|}.

Definition boom : error := errorString "boom"%string.
Definition leak : error := errorString "leak"%string.

(** A fresh upClient at address 1 and a fresh peer server at address 2, in a
    world where nothing was called yet. *)
Definition freshUp : machine upClient :=
  mkMachine 1 (newUpClient (Live 0) 7 tt) 0 [].

Definition freshPeer : machine wireguardPeerServer :=
  mkMachine 2 (NewServer 7) 0 [].

(** Everything succeeds. *)
Definition all_fine : Collaborators :=
  scripted None None None None (Some "conn"%string, None) None.

(** initFunc fails. *)
Definition init_fails : Collaborators :=
  scripted (Some boom) None None None (Some "conn"%string, None) None.

(** The setup action fails with [boom], and the Close that follows fails with
    [leak]. *)
Definition setup_fails_close_fails : Collaborators :=
  scripted None (Some boom) (Some boom) None (Some "conn"%string, None) (Some leak).

(** The continuation's Request fails with [boom]. *)
Definition continuation_fails : Collaborators :=
  scripted None None None None (None, Some boom) None.

(** The continuation's Request returns nil and nil, as the end of a chain does
    for a request that carries no connection. *)
Definition nil_continuation : Collaborators :=
  scripted None None None None (None, None) None.

(** [freshUp] after an init that ran initFunc with [Live 1] and succeeded. *)
Definition initedUp : machine upClient :=
  mkMachine 1 (mkUpClient (Live 0) 7 tt 1 false) 1 [EvInitFunc (Live 1) 7].

(** [freshUp] after an init that ran initFunc with [Live 1] and failed. *)
Definition uninitedUp : machine upClient :=
  mkMachine 1 (newUpClient (Live 0) 7 tt) 1 [EvInitFunc (Live 1) 7].

(** [freshUp] after a Request with [Live 1] in which every call succeeded. *)
Definition establishedUp : machine upClient :=
  mkMachine 1 (mkUpClient (Live 0) 7 tt 1 false) 3
    [EvInitFunc (Live 1) 7; EvContextWithValues (Live 1);
     EvNextRequest (Live 1) (Live 1) "request"%string [];
     EvUp (Live 1) 7 tt true].

(** [freshUp] and [freshPeer] after a Request with [Live 1] in which the setup
    action failed and the element rolled back. *)
Definition rolledBackUp : machine upClient :=
  mkMachine 1 (mkUpClient (Live 0) 7 tt 1 false) 4
    [EvInitFunc (Live 1) 7; EvContextWithValues (Live 1);
     EvNextRequest (Live 1) (Live 1) "request"%string [];
     EvUp (Live 1) 7 tt true;
     EvPostponeCtxFunc (Postponed (Live 1));
     EvNextClose (Postponed (Live 1)) (Postponed (Live 1)) (Some "conn"%string) [];
     EvCancelClose (Postponed (Live 1))].

Definition rolledBackPeer : machine wireguardPeerServer :=
  mkMachine 2 (NewServer 7) 4
    [EvContextWithValues (Live 1);
     EvNextRequest (Live 1) (Live 1) "request"%string [];
     EvCreatePeer (Live 1) (Some "conn"%string) 7 false;
     EvPostponeCtxFunc (Postponed (Live 1));
     EvDelPeer (Postponed (Live 1)) (Some "conn"%string) 7 false;
     EvNextClose (Postponed (Live 1)) (Postponed (Live 1)) (Some "conn"%string) [];
     EvCancelClose (Postponed (Live 1))].

(** A Request with [Live 1] and then a Close with [Live 2], and [freshPeer]
    after them when every call succeeded. *)
Definition request_then_close : list peer_op :=
  [OpRequest (Live 1) "request"%string; OpClose (Live 2) (Some "conn"%string)].

Definition closedPeer : machine wireguardPeerServer :=
  mkMachine 2 (NewServer 7) 4
    [EvContextWithValues (Live 1);
     EvNextRequest (Live 1) (Live 1) "request"%string [];
     EvCreatePeer (Live 1) (Some "conn"%string) 7 false;
     EvDelPeer (Live 2) (Some "conn"%string) 7 false;
     EvNextClose (Live 2) (Live 2) (Some "conn"%string) []].

(** [freshPeer] after a Request with [Live 1] in which every call
    succeeded. *)
Definition establishedPeer : machine wireguardPeerServer :=
  mkMachine 2 (NewServer 7) 2
    [EvContextWithValues (Live 1);
     EvNextRequest (Live 1) (Live 1) "request"%string [];
     EvCreatePeer (Live 1) (Some "conn"%string) 7 false].

(** Two Requests on an upClient with a Close between them. *)
Definition request_close_request : list up_op :=
  [OpUpRequest (Live 1) "request"%string [];
   OpUpClose (Live 2) (Some "conn"%string) [];
   OpUpRequest (Live 3) "request"%string []].

(** The error a Request returns in [setup_fails_close_fails]. *)
Definition boom_and_leak : error :=
  withMessage boom "connection closed with error: leak"%string.

(** * Properties *)

Section Properties.

Context `{C : Collaborators}.

(** ** Contexts and errors *)

Lemma context_eqb_refl c : context_eqb c c = true.
Proof. induction c as [n | c IH]; simpl; [apply Nat.eqb_refl | exact IH]. Qed.

Lemma Postponed_neq c : Postponed c <> c.
Proof. induction c as [n | c IH]; [discriminate | intros E; injection E; exact IH]. Qed.

Lemma is_suffix_refl s : is_suffix s s = true.
Proof. destruct s; simpl; [reflexivity | rewrite Ascii.eqb_refl, String.eqb_refl; reflexivity]. Qed.

Lemma is_suffix_app p s : is_suffix s (p ++ s)%string = true.
Proof.
  induction p as [| a p IH]; simpl.
  - apply is_suffix_refl.
  - rewrite IH. destruct (String.eqb s (String a (p ++ s))); reflexivity.
Qed.

Lemma prefix_app s t : String.prefix s (s ++ t)%string = true.
Proof.
  induction s as [| a s IH]; simpl.
  - destruct t; reflexivity.
  - destruct (Ascii.ascii_dec a a) as [_ | N]; [exact IH | contradiction].
Qed.

Lemma is_substring_here s t : String.prefix s t = true -> is_substring s t = true.
Proof. intros E. destruct t; cbn [is_substring]; rewrite E; reflexivity. Qed.

Lemma is_substring_app p s t : is_substring s (p ++ s ++ t)%string = true.
Proof.
  induction p as [| a p IH].
  - cbn [append]. apply is_substring_here, prefix_app.
  - cbn [append is_substring]. rewrite IH. destruct (String.prefix _ _); reflexivity.
Qed.

Lemma append_assoc (a b c : string) : ((a ++ b) ++ c = a ++ b ++ c)%string.
Proof. induction a as [| x a IH]; simpl; [reflexivity | rewrite IH; reflexivity]. Qed.

Lemma rollbackError_Cause e closeErr : Cause (rollbackError e closeErr) = Cause e.
Proof. destruct closeErr; reflexivity. Qed.

Lemma rollbackError_keeps_cause e closeErr :
  is_suffix (Error e) (Error (rollbackError e closeErr)) = true.
Proof.
  destruct closeErr as [ce |]; cbn [rollbackError Error].
  - rewrite <- append_assoc. apply is_suffix_app.
  - apply is_suffix_refl.
Qed.

Lemma rollbackError_mentions_close e ce :
  is_substring (Error ce) (Error (rollbackError e (Some ce))) = true.
Proof.
  cbn [rollbackError Error]. unfold closedWithError.
  rewrite append_assoc. apply is_substring_app.
Qed.

(** ** What each method does, path by path *)

Ltac run_body :=
  unfold defer; unfold bind, ret, field, self, update, call, blocked; cbn.

Ltac join_trace := rewrite <- ?app_assoc; cbn [app].

Lemma upClient_init_eq c m :
  upClient_init c m =
  if (0 <? inited (elem m))%Z then Some (None, m)
  else if initMutex (elem m) then None
  else let (err, w) := initFunc c (vppConn (elem m)) (world m) in
       Some (err,
             mkMachine (this m)
               (mkUpClient (ctx (elem m)) (vppConn (elem m)) (loadIfIndex (elem m))
                  (match err with None => 1%Z | Some _ => inited (elem m) end) false)
               w (trace m ++ [EvInitFunc c (vppConn (elem m))])).
Proof.
  unfold upClient_init, LoadUint32_inited, initMutex_Lock, initMutex_Unlock,
    StoreUint32_inited.
  run_body.
  destruct (0 <? inited (elem m))%Z eqn:L; [reflexivity |].
  destruct (initMutex (elem m)); cbn; [reflexivity |].
  rewrite L. cbn.
  destruct (initFunc c (vppConn (elem m)) (world m)) as [[e |] w]; reflexivity.
Qed.

Lemma upClient_Close_eq c conn opts m :
  upClient_Close c conn opts m =
  let (r, w) := nextClientClose c c conn opts (world m) in
  Some (r, mkMachine (this m) (elem m) w (trace m ++ [EvNextClose c c conn opts])).
Proof. reflexivity. Qed.

Lemma wireguardPeerServer_Close_eq c conn m :
  wireguardPeerServer_Close c conn m =
  let b := IsClient (mkIface ptr_wireguardPeerServer (this m)) in
  let (_, w1) := delPeer c conn (peer_vppConn (elem m)) b (world m) in
  let (r, w2) := nextServerClose c c conn w1 in
  Some (r, mkMachine (this m) (elem m) w2
             (trace m ++ [EvDelPeer c conn (peer_vppConn (elem m)) b;
                          EvNextClose c c conn []])).
Proof.
  unfold wireguardPeerServer_Close. run_body.
  destruct (delPeer _ _ _ _ _) as [d w1]; cbn.
  destruct (nextServerClose _ _ _ _) as [r w2]; cbn.
  join_trace. reflexivity.
Qed.

Section UpClientRequest.

Variables (c : context) (request : NetworkServiceRequest) (opts : list CallOption).
Variables (m m1 : machine upClient).

Let isClient := IsClient (mkIface ptr_upClient (this m1)).
Let entered := [EvContextWithValues c; EvNextRequest c c request opts].
Let raised :=
  [EvUp c (vppConn (elem m1)) (loadIfIndex (elem m1)) isClient].

Lemma upClient_Request_blocked :
  upClient_init c m = None -> upClient_Request c request opts m = None.
Proof. intros I. unfold upClient_Request, bind. rewrite I. reflexivity. Qed.

Lemma upClient_Request_init_error e :
  upClient_init c m = Some (Some e, m1) ->
  upClient_Request c request opts m = Some ((None, Some e), m1).
Proof. intros I. unfold upClient_Request, bind. rewrite I. reflexivity. Qed.

Lemma upClient_Request_next_error conn e w2 :
  upClient_init c m = Some (None, m1) ->
  nextClientRequest c c request opts (world m1) = ((conn, Some e), w2) ->
  upClient_Request c request opts m =
  Some ((None, Some e), mkMachine (this m1) (elem m1) w2 (trace m1 ++ entered)).
Proof.
  intros I N. unfold upClient_Request, bind at 1. rewrite I.
  unfold ContextWithValues. run_body. rewrite N. cbn.
  join_trace. reflexivity.
Qed.

Lemma upClient_Request_success conn w2 w3 :
  upClient_init c m = Some (None, m1) ->
  nextClientRequest c c request opts (world m1) = ((conn, None), w2) ->
  up c (vppConn (elem m1)) (loadIfIndex (elem m1)) isClient w2 = (None, w3) ->
  upClient_Request c request opts m =
  Some ((conn, None),
        mkMachine (this m1) (elem m1) w3 (trace m1 ++ entered ++ raised)).
Proof.
  intros I N U. unfold upClient_Request, bind at 1. rewrite I.
  unfold ContextWithValues. run_body. rewrite N. cbn.
  fold isClient. rewrite U. cbn. join_trace. reflexivity.
Qed.

Lemma upClient_Request_rollback conn w2 e w3 :
  upClient_init c m = Some (None, m1) ->
  nextClientRequest c c request opts (world m1) = ((conn, None), w2) ->
  up c (vppConn (elem m1)) (loadIfIndex (elem m1)) isClient w2 = (Some e, w3) ->
  let before_close :=
    mkMachine (this m1) (elem m1) w3
      (trace m1 ++ entered ++ raised ++ [EvPostponeCtxFunc (Postponed c)]) in
  exists v closeErr m4,
    upClient_Close (Postponed c) conn opts before_close = Some ((v, closeErr), m4) /\
    upClient_Request c request opts m =
    Some ((None, Some (rollbackError e closeErr)),
          mkMachine (this m4) (elem m4) (world m4)
            (trace m4 ++ [EvCancelClose (Postponed c)])).
Proof.
  intros I N U before_close.
  destruct (nextClientClose (Postponed c) (Postponed c) conn opts w3)
    as [[v closeErr] w4] eqn:K.
  exists v, closeErr.
  eexists. split.
  - rewrite upClient_Close_eq. cbn. rewrite K. reflexivity.
  - unfold upClient_Request, bind at 1. rewrite I.
    unfold ContextWithValues, upClient_Close. run_body. rewrite N. cbn.
    fold isClient. rewrite U. cbn. rewrite K. cbn.
    join_trace. destruct closeErr; reflexivity.
Qed.

End UpClientRequest.

Section PeerServerRequest.

Variables (c : context) (request : NetworkServiceRequest).
Variable m : machine wireguardPeerServer.

Let isClient := IsClient (mkIface ptr_wireguardPeerServer (this m)).
Let entered := [EvContextWithValues c; EvNextRequest c c request []].
Let created conn := [EvCreatePeer c conn (peer_vppConn (elem m)) isClient].

Lemma wireguardPeerServer_Request_next_error conn e w2 :
  nextServerRequest c c request (world m) = ((conn, Some e), w2) ->
  wireguardPeerServer_Request c request m =
  Some ((None, Some e), mkMachine (this m) (elem m) w2 (trace m ++ entered)).
Proof.
  intros N. unfold wireguardPeerServer_Request, ContextWithValues.
  run_body. rewrite N. cbn. join_trace. reflexivity.
Qed.

Lemma wireguardPeerServer_Request_success conn w2 w3 :
  nextServerRequest c c request (world m) = ((conn, None), w2) ->
  createPeer c conn (peer_vppConn (elem m)) isClient w2 = (None, w3) ->
  wireguardPeerServer_Request c request m =
  Some ((conn, None),
        mkMachine (this m) (elem m) w3 (trace m ++ entered ++ created conn)).
Proof.
  intros N P. unfold wireguardPeerServer_Request, ContextWithValues.
  run_body. rewrite N. cbn. fold isClient. rewrite P. cbn.
  join_trace. reflexivity.
Qed.

Lemma wireguardPeerServer_Request_rollback conn w2 e w3 :
  nextServerRequest c c request (world m) = ((conn, None), w2) ->
  createPeer c conn (peer_vppConn (elem m)) isClient w2 = (Some e, w3) ->
  let before_close :=
    mkMachine (this m) (elem m) w3
      (trace m ++ entered ++ created conn ++ [EvPostponeCtxFunc (Postponed c)]) in
  exists v closeErr m4,
    wireguardPeerServer_Close (Postponed c) conn before_close
    = Some ((v, closeErr), m4) /\
    wireguardPeerServer_Request c request m =
    Some ((None, Some (rollbackError e closeErr)),
          mkMachine (this m4) (elem m4) (world m4)
            (trace m4 ++ [EvCancelClose (Postponed c)])).
Proof.
  intros N P before_close. unfold isClient in *.
  destruct (delPeer (Postponed c) conn (peer_vppConn (elem m))
              (IsClient (mkIface ptr_wireguardPeerServer (this m))) w3)
    as [d w4] eqn:D.
  destruct (nextServerClose (Postponed c) (Postponed c) conn w4)
    as [[v closeErr] w5] eqn:K.
  exists v, closeErr.
  eexists. split.
  - rewrite wireguardPeerServer_Close_eq. cbn.
    rewrite D, K. reflexivity.
  - unfold wireguardPeerServer_Request, ContextWithValues, wireguardPeerServer_Close.
    run_body. rewrite N. cbn. rewrite P. cbn.
    rewrite D. cbn. rewrite K. cbn.
    join_trace. destruct closeErr; reflexivity.
Qed.

End PeerServerRequest.

(** ** Traces only grow *)

Lemma new_events_app {Elem} (m m' : machine Elem) l :
  trace m' = trace m ++ l -> new_events m m' = l.
Proof.
  intros E. unfold new_events. rewrite E, skipn_app, skipn_all, Nat.sub_diag.
  reflexivity.
Qed.

(** ** The guarded initializer *)

Lemma upClient_init_inited c m :
  (0 < inited (elem m))%Z -> upClient_init c m = Some (None, m).
Proof.
  intros L. rewrite upClient_init_eq.
  apply Z.ltb_lt in L. rewrite L. reflexivity.
Qed.

Lemma upClient_init_runs c m :
  inited (elem m) = 0%Z -> initMutex (elem m) = false ->
  exists err w m',
    initFunc c (vppConn (elem m)) (world m) = (err, w) /\
    upClient_init c m = Some (err, m') /\
    this m' = this m /\
    vppConn (elem m') = vppConn (elem m) /\
    loadIfIndex (elem m') = loadIfIndex (elem m) /\
    inited (elem m') = (match err with None => 1 | Some _ => 0 end)%Z /\
    initMutex (elem m') = false /\
    world m' = w /\
    trace m' = trace m ++ [EvInitFunc c (vppConn (elem m))].
Proof.
  intros Z0 F. rewrite upClient_init_eq, Z0, F. cbn.
  destruct (initFunc c (vppConn (elem m)) (world m)) as [err w].
  exists err, w. eexists. split; [reflexivity |]. split; [reflexivity |].
  cbn. destruct err; repeat split; reflexivity.
Qed.

(** With the mutex free, init returns, and leaves the mutex free. *)
Lemma upClient_init_returns c m :
  initMutex (elem m) = false ->
  exists err m', upClient_init c m = Some (err, m') /\ initMutex (elem m') = false.
Proof.
  intros F. rewrite upClient_init_eq.
  destruct (0 <? inited (elem m))%Z.
  - exists None, m. split; [reflexivity | exact F].
  - rewrite F. destruct (initFunc _ _ _) as [err w].
    eexists _, _. split; reflexivity.
Qed.

(** An init that returns an error has just run initFunc, and left the element
    as it was. *)
Lemma upClient_init_error c m e m1 :
  upClient_init c m = Some (Some e, m1) ->
  exists w, initFunc c (vppConn (elem m)) (world m) = (Some e, w) /\
            (0 <? inited (elem m))%Z = false /\
            inited (elem m1) = inited (elem m) /\
            world m1 = w /\
            trace m1 = trace m ++ [EvInitFunc c (vppConn (elem m))].
Proof.
  rewrite upClient_init_eq.
  destruct (0 <? inited (elem m))%Z; [discriminate |].
  destruct (initMutex (elem m)); [discriminate |].
  destruct (initFunc _ _ _) as [[e' |] w]; intros E; inversion E; subst.
  exists w. repeat split; reflexivity.
Qed.

(** Whatever init returns, it called nothing but initFunc, at most once, and
    kept the address and the immutable fields of the receiver. *)
Lemma upClient_init_frame c m r m1 :
  upClient_init c m = Some (r, m1) ->
  this m1 = this m /\
  vppConn (elem m1) = vppConn (elem m) /\
  loadIfIndex (elem m1) = loadIfIndex (elem m) /\
  (trace m1 = trace m \/ trace m1 = trace m ++ [EvInitFunc c (vppConn (elem m))]).
Proof.
  rewrite upClient_init_eq.
  destruct (0 <? inited (elem m))%Z.
  - intros E; inversion E; subst. repeat split. left; reflexivity.
  - destruct (initMutex (elem m)); [discriminate |].
    destruct (initFunc _ _ _) as [err w]; intros E; inversion E; subst.
    cbn. repeat split. right; reflexivity.
Qed.

Lemma init_seq_inited ctxs m :
  (0 < inited (elem m))%Z ->
  init_seq ctxs m = Some (map (fun _ => None) ctxs, m).
Proof.
  intros L. induction ctxs as [| c ctxs IH]; [reflexivity |].
  cbn [init_seq map]. unfold bind at 1. rewrite (upClient_init_inited c m L).
  unfold bind at 1. rewrite IH. reflexivity.
Qed.

(** ** Every way a Request can go *)

Lemma wireguardPeerServer_Request_cases c request (m : machine wireguardPeerServer) :
  let b := IsClient (mkIface ptr_wireguardPeerServer (this m)) in
  let vpp := peer_vppConn (elem m) in
  exists r m' conn nerr w2,
    wireguardPeerServer_Request c request m = Some (r, m') /\
    this m' = this m /\ elem m' = elem m /\
    nextServerRequest c c request (world m) = ((conn, nerr), w2) /\
    ((exists e, nerr = Some e /\ r = (None, Some e) /\ world m' = w2 /\
                trace m' = trace m ++ entered c request [])
     \/
     (nerr = None /\ r = (conn, None) /\
      createPeer c conn vpp b w2 = (None, world m') /\
      trace m'
      = trace m ++ entered c request [] ++ [EvCreatePeer c conn vpp b])
     \/
     (nerr = None /\
      exists e w3 closeErr,
        createPeer c conn vpp b w2 = (Some e, w3) /\
        r = (None, Some (rollbackError e closeErr)) /\
        trace m'
        = trace m ++ entered c request [] ++ [EvCreatePeer c conn vpp b]
          ++ peer_rolled_back c conn vpp b)).
Proof.
  intros b vpp.
  destruct (nextServerRequest c c request (world m)) as [[conn nerr] w2] eqn:N.
  destruct nerr as [e |].
  - eexists _, _, conn, (Some e), w2.
    split; [apply (wireguardPeerServer_Request_next_error c request m conn e w2 N) |].
    cbn. repeat split. left. exists e. repeat split.
  - destruct (createPeer c conn vpp b w2) as [[e |] w3] eqn:P.
    + destruct (wireguardPeerServer_Request_rollback c request m conn w2 e w3 N P)
        as (v & closeErr & m4 & K & R).
      rewrite wireguardPeerServer_Close_eq in K. cbn in K.
      destruct (delPeer _ _ _ _ _) as [d w4].
      destruct (nextServerClose _ _ _ _) as [r5 w5].
      inversion K; subst. clear K. cbn [this elem world trace] in R.
      eexists _, _, conn, None, w2.
      split; [exact R |]. cbn. repeat split.
      right. right. split; [reflexivity |].
      exists e, w3, closeErr.
      split; [assumption |]. split; [reflexivity |].
      cbn. rewrite <- !app_assoc. reflexivity.
    + eexists _, _, conn, None, w2.
      split; [apply (wireguardPeerServer_Request_success c request m conn w2 w3 N P) |].
      cbn. repeat split. right. left.
      split; [reflexivity |]. split; [reflexivity |]. split; [assumption |].
      reflexivity.
Qed.

Lemma upClient_Request_after_init c request opts (m m1 : machine upClient) :
  upClient_init c m = Some (None, m1) ->
  let b := IsClient (mkIface ptr_upClient (this m1)) in
  let vpp := vppConn (elem m1) in
  let load := loadIfIndex (elem m1) in
  exists r m' conn nerr w2,
    upClient_Request c request opts m = Some (r, m') /\
    this m' = this m1 /\ elem m' = elem m1 /\
    nextClientRequest c c request opts (world m1) = ((conn, nerr), w2) /\
    ((exists e, nerr = Some e /\ r = (None, Some e) /\ world m' = w2 /\
                trace m' = trace m1 ++ entered c request opts)
     \/
     (nerr = None /\ r = (conn, None) /\
      up c vpp load b w2 = (None, world m') /\
      trace m'
      = trace m1 ++ entered c request opts ++ [EvUp c vpp load b])
     \/
     (nerr = None /\
      exists e w3 closeErr,
        up c vpp load b w2 = (Some e, w3) /\
        r = (None, Some (rollbackError e closeErr)) /\
        trace m'
        = trace m1 ++ entered c request opts ++ [EvUp c vpp load b]
          ++ upClient_rolled_back c conn opts)).
Proof.
  intros I b vpp load.
  destruct (nextClientRequest c c request opts (world m1)) as [[conn nerr] w2] eqn:N.
  destruct nerr as [e |].
  - eexists _, _, conn, (Some e), w2.
    split; [apply (upClient_Request_next_error c request opts m m1 conn e w2 I N) |].
    cbn. repeat split. left. exists e. repeat split.
  - destruct (up c vpp load b w2) as [[e |] w3] eqn:U.
    + destruct (upClient_Request_rollback c request opts m m1 conn w2 e w3 I N U)
        as (v & closeErr & m4 & K & R).
      rewrite upClient_Close_eq in K. cbn in K.
      destruct (nextClientClose _ _ _ _ _) as [r5 w5].
      inversion K; subst. clear K. cbn [this elem world trace] in R.
      eexists _, _, conn, None, w2.
      split; [exact R |]. cbn. repeat split.
      right. right. split; [reflexivity |].
      exists e, w3, closeErr.
      split; [assumption |]. split; [reflexivity |].
      cbn. rewrite <- !app_assoc. reflexivity.
    + eexists _, _, conn, None, w2.
      split; [apply (upClient_Request_success c request opts m m1 conn w2 w3 I N U) |].
      cbn. repeat split. right. left.
      split; [reflexivity |]. split; [reflexivity |]. split; [assumption |].
      reflexivity.
Qed.

(** With the mutex free, a Request on an upClient returns, and leaves the
    mutex free. *)
Lemma upClient_Request_returns c request opts (m : machine upClient) :
  initMutex (elem m) = false ->
  exists r m',
    upClient_Request c request opts m = Some (r, m') /\
    initMutex (elem m') = false.
Proof.
  intros F.
  destruct (upClient_init_returns c m F) as ([e |] & m1 & I & F1).
  - exists (None, Some e), m1.
    split; [apply upClient_Request_init_error, I | exact F1].
  - destruct (upClient_Request_after_init c request opts m m1 I)
      as (r & m' & _ & _ & _ & R & _ & E & _).
    exists r, m'. split; [exact R | rewrite E; exact F1].
Qed.

(** C3.  The latch of the guarded initialization.  On an upClient whose latch
    is unset and whose mutex is free: when initFunc succeeds, init returns nil
    and the latch is 1, and from then on every run of init calls returns nil
    each time and leaves the machine (latch, world, trace) exactly as it was,
    so initFunc is not run again; when initFunc fails with [e], init returns
    [e], the latch is still 0, and the next init call runs initFunc again.
    In any machine whose latch is set, whatever its world and trace, a run of
    init calls returns nil each time and changes nothing. *)
Theorem upClient_init_latch :
  (forall c m w,
     inited (elem m) = 0%Z -> initMutex (elem m) = false ->
     initFunc c (vppConn (elem m)) (world m) = (None, w) ->
     exists m',
       upClient_init c m = Some (None, m') /\
       inited (elem m') = 1%Z /\
       trace m' = trace m ++ [EvInitFunc c (vppConn (elem m))] /\
       forall ctxs, init_seq ctxs m' = Some (map (fun _ => None) ctxs, m'))
  /\
  (forall c m e w,
     inited (elem m) = 0%Z -> initMutex (elem m) = false ->
     initFunc c (vppConn (elem m)) (world m) = (Some e, w) ->
     exists m',
       upClient_init c m = Some (Some e, m') /\
       inited (elem m') = 0%Z /\
       trace m' = trace m ++ [EvInitFunc c (vppConn (elem m))] /\
       forall c2, exists r m'',
         upClient_init c2 m' = Some (r, m'') /\
         trace m'' = trace m' ++ [EvInitFunc c2 (vppConn (elem m'))])
  /\
  (forall m ctxs,
     (0 < inited (elem m))%Z ->
     init_seq ctxs m = Some (map (fun _ => None) ctxs, m)).
Proof.
  split; [| split; [| intros m ctxs L; apply init_seq_inited, L]].
  - intros c m w Z0 F I.
    destruct (upClient_init_runs c m Z0 F)
      as (err & w' & m' & I' & R & _ & _ & _ & L & _ & _ & T).
    rewrite I in I'. inversion I'; subst err w'.
    exists m'. split; [exact R |]. split; [exact L |]. split; [exact T |].
    intros ctxs. apply init_seq_inited. rewrite L. reflexivity.
  - intros c m e w Z0 F I.
    destruct (upClient_init_runs c m Z0 F)
      as (err & w' & m' & I' & R & _ & _ & _ & L & F' & _ & T).
    rewrite I in I'. inversion I'; subst err w'.
    exists m'. split; [exact R |]. split; [exact L |]. split; [exact T |].
    intros c2.
    destruct (upClient_init_runs c2 m' L F')
      as (r & w2 & m'' & _ & R2 & _ & _ & _ & _ & _ & _ & T2).
    exists r, m''. split; assumption.
Qed.

(** C6.  When the guarded initialization returns an error, Request returns nil
    and that very error, in the machine init left: initFunc was the only call
    made, and no call of the continuation is among the new events. *)
Theorem upClient_Request_fails_fast c request opts (m m1 : machine upClient) e :
  upClient_init c m = Some (Some e, m1) ->
  upClient_Request c request opts m = Some ((None, Some e), m1) /\
  new_events m m1 = [EvInitFunc c (vppConn (elem m))] /\
  forallb (fun ev => negb (is_continuation_call ev)) (new_events m m1) = true.
Proof.
  intros I.
  destruct (upClient_init_error c m e m1 I) as (w & _ & _ & _ & _ & T).
  rewrite (new_events_app m m1 _ T).
  repeat split. apply upClient_Request_init_error, I.
Qed.

(** C7.  Close always reaches the continuation.  wireguardPeerServer.Close
    calls delPeer first and then, whatever delPeer returned, the
    continuation's Close, in the world delPeer left; upClient.Close calls the
    continuation's Close and nothing else. *)
Theorem Close_always_delegates :
  (forall c conn (m : machine wireguardPeerServer),
     let b := IsClient (mkIface ptr_wireguardPeerServer (this m)) in
     exists d w1 r w2,
       delPeer c conn (peer_vppConn (elem m)) b (world m) = (d, w1) /\
       nextServerClose c c conn w1 = (r, w2) /\
       wireguardPeerServer_Close c conn m =
       Some (r, mkMachine (this m) (elem m) w2
                  (trace m ++ [EvDelPeer c conn (peer_vppConn (elem m)) b;
                               EvNextClose c c conn []])))
  /\
  (forall c conn opts (m : machine upClient),
     exists r w,
       nextClientClose c c conn opts (world m) = (r, w) /\
       upClient_Close c conn opts m =
       Some (r, mkMachine (this m) (elem m) w
                  (trace m ++ [EvNextClose c c conn opts]))).
Proof.
  split.
  - intros c conn m b. rewrite wireguardPeerServer_Close_eq. cbv zeta. fold b.
    destruct (delPeer c conn (peer_vppConn (elem m)) b (world m)) as [d w1] eqn:D.
    destruct (nextServerClose c c conn w1) as [r w2] eqn:K.
    exists d, w1, r, w2. split; [reflexivity | split; [exact K | reflexivity]].
  - intros c conn opts m. rewrite upClient_Close_eq.
    destruct (nextClientClose c c conn opts (world m)) as [r w].
    exists r, w. split; reflexivity.
Qed.

(** C9.  upClient.Close has no undo action of its own: it returns what the
    continuation's Close returns for the same context, connection and
    options, and the receiver (latch, mutex and every other field) and its
    address are as before. *)
Theorem upClient_Close_only_delegates c conn opts (m : machine upClient) :
  exists m',
    upClient_Close c conn opts m
    = Some (fst (nextClientClose c c conn opts (world m)), m') /\
    elem m' = elem m /\
    this m' = this m /\
    world m' = snd (nextClientClose c c conn opts (world m)) /\
    new_events m m' = [EvNextClose c c conn opts].
Proof.
  rewrite upClient_Close_eq.
  destruct (nextClientClose c c conn opts (world m)) as [r w].
  eexists. split; [reflexivity |]. cbn. repeat split.
  apply new_events_app. reflexivity.
Qed.

Lemma upClient_init_events c m r m1 :
  upClient_init c m = Some (r, m1) ->
  exists l, trace m1 = trace m ++ l /\
            (l = [] \/ l = [EvInitFunc c (vppConn (elem m))]).
Proof.
  intros I. destruct (upClient_init_frame c m r m1 I) as (_ & _ & _ & [T | T]).
  - exists []. rewrite app_nil_r. split; [exact T | left; reflexivity].
  - eexists. split; [exact T | right; reflexivity].
Qed.

(** C1.  Rollback after a failed setup action.  When the continuation
    returned a connection and no error, and the setup action (up, createPeer)
    then failed with [e], Request calls the element's own Close with the
    postponed context [Postponed c], never with [c] itself, on the connection
    the continuation returned; it then returns nil and an error.  That
    error is [e] when Close returned no error; when Close returned [ce] it is
    [e] annotated with the text of [ce]: its cause is still the cause of [e],
    its text ends with the text of [e] and contains the text of [ce]. *)
Theorem Request_rolls_back_with_postponed_context :
  (forall c request opts (m m1 : machine upClient) conn w2 e w3,
     let b := IsClient (mkIface ptr_upClient (this m1)) in
     upClient_init c m = Some (None, m1) ->
     nextClientRequest c c request opts (world m1) = ((conn, None), w2) ->
     up c (vppConn (elem m1)) (loadIfIndex (elem m1)) b w2 = (Some e, w3) ->
     exists v closeErr m4,
       upClient_Close (Postponed c) conn opts
         (mkMachine (this m1) (elem m1) w3
            (trace m1 ++ entered c request opts
             ++ [EvUp c (vppConn (elem m1)) (loadIfIndex (elem m1)) b]
             ++ [EvPostponeCtxFunc (Postponed c)]))
       = Some ((v, closeErr), m4) /\
       upClient_Request c request opts m
       = Some ((None, Some (rollbackError e closeErr)),
               mkMachine (this m4) (elem m4) (world m4)
                 (trace m4 ++ [EvCancelClose (Postponed c)])))
  /\
  (forall c request (m : machine wireguardPeerServer) conn w2 e w3,
     let b := IsClient (mkIface ptr_wireguardPeerServer (this m)) in
     nextServerRequest c c request (world m) = ((conn, None), w2) ->
     createPeer c conn (peer_vppConn (elem m)) b w2 = (Some e, w3) ->
     exists v closeErr m4,
       wireguardPeerServer_Close (Postponed c) conn
         (mkMachine (this m) (elem m) w3
            (trace m ++ entered c request []
             ++ [EvCreatePeer c conn (peer_vppConn (elem m)) b]
             ++ [EvPostponeCtxFunc (Postponed c)]))
       = Some ((v, closeErr), m4) /\
       wireguardPeerServer_Request c request m
       = Some ((None, Some (rollbackError e closeErr)),
               mkMachine (this m4) (elem m4) (world m4)
                 (trace m4 ++ [EvCancelClose (Postponed c)])))
  /\
  (forall c, Postponed c <> c)
  /\
  (forall e, rollbackError e None = e)
  /\
  (forall e ce,
     rollbackError e (Some ce) = withMessage e (closedWithError ce) /\
     Cause (rollbackError e (Some ce)) = Cause e /\
     is_suffix (Error e) (Error (rollbackError e (Some ce))) = true /\
     is_substring (Error ce) (Error (rollbackError e (Some ce))) = true).
Proof.
  split; [| split; [| split; [| split]]].
  - intros c request opts m m1 conn w2 e w3 b I N U.
    exact (upClient_Request_rollback c request opts m m1 conn w2 e w3 I N U).
  - intros c request m conn w2 e w3 b N P.
    exact (wireguardPeerServer_Request_rollback c request m conn w2 e w3 N P).
  - exact Postponed_neq.
  - reflexivity.
  - intros e ce. split; [reflexivity |]. split; [apply rollbackError_Cause |].
    split; [apply rollbackError_keeps_cause | apply rollbackError_mentions_close].
Qed.

(** C5.  When the continuation's Request returns an error [e], Request
    returns nil and [e] itself, in the world the continuation left.  The only
    calls made after the guarded initialization are the capture of the
    context and the continuation's Request: neither the setup action nor a
    compensating Close (nor its undo action) is among the calls of the whole
    Request. *)
Theorem Request_propagates_continuation_error :
  (forall c request opts (m m1 : machine upClient) conn e w2,
     upClient_init c m = Some (None, m1) ->
     nextClientRequest c c request opts (world m1) = ((conn, Some e), w2) ->
     exists m',
       upClient_Request c request opts m = Some ((None, Some e), m') /\
       world m' = w2 /\
       elem m' = elem m1 /\
       new_events m1 m' = entered c request opts /\
       forallb (fun ev => negb (is_setup_or_close ev)) (new_events m m') = true)
  /\
  (forall c request (m : machine wireguardPeerServer) conn e w2,
     nextServerRequest c c request (world m) = ((conn, Some e), w2) ->
     exists m',
       wireguardPeerServer_Request c request m = Some ((None, Some e), m') /\
       world m' = w2 /\
       elem m' = elem m /\
       new_events m m' = entered c request [] /\
       forallb (fun ev => negb (is_setup_or_close ev)) (new_events m m') = true).
Proof.
  split.
  - intros c request opts m m1 conn e w2 I N.
    eexists. split; [exact (upClient_Request_next_error c request opts m m1 conn e w2 I N) |].
    cbn [world elem]. split; [reflexivity |]. split; [reflexivity |].
    split; [apply new_events_app; reflexivity |].
    destruct (upClient_init_events c m None m1 I) as (l & T & L).
    rewrite (new_events_app m _ (l ++ entered c request opts)).
    + destruct L; subst l; reflexivity.
    + cbn [trace]. rewrite T, app_assoc. reflexivity.
  - intros c request m conn e w2 N.
    eexists. split; [exact (wireguardPeerServer_Request_next_error c request m conn e w2 N) |].
    cbn [world elem]. split; [reflexivity |]. split; [reflexivity |].
    rewrite (new_events_app m _ (entered c request []));
      [split; reflexivity | reflexivity].
Qed.

(** C10.  wireguardPeerServer.Close returns the pair the continuation's Close
    returns, called in the world delPeer left.  The error delPeer returns is
    dropped: whatever error delPeer is made to return instead, Close returns
    the same pair and ends in the same machine. *)
Theorem wireguardPeerServer_Close_drops_delPeer_error
  c conn (m : machine wireguardPeerServer) :
  (exists m',
     wireguardPeerServer_Close c conn m
     = Some (fst (nextServerClose c c conn
                    (snd (delPeer c conn (peer_vppConn (elem m))
                            (IsClient (mkIface ptr_wireguardPeerServer (this m)))
                            (world m)))),
             m'))
  /\
  (forall f,
     wireguardPeerServer_Close (C := with_delPeer_error f) c conn m
     = wireguardPeerServer_Close c conn m).
Proof.
  split.
  - rewrite wireguardPeerServer_Close_eq. cbv zeta.
    destruct (delPeer _ _ _ _ _) as [d w1]. cbn [snd].
    destruct (nextServerClose c c conn w1) as [r w2]. cbn [fst].
    eexists. reflexivity.
  - intros f. unfold wireguardPeerServer_Close. run_body.
    destruct (delPeer _ _ _ _ _) as [d w1]. reflexivity.
Qed.

Lemma captured_first_entered c request opts rest :
  hd_error (entered c request opts ++ rest) = Some (EvContextWithValues c) /\
  captured_first c (entered c request opts ++ rest) = true.
Proof. split; [reflexivity |]. cbn. rewrite context_eqb_refl. reflexivity. Qed.

(** C2, as the code has it.  The snapshot of the live context is captured
    before the continuation is called, and so before the setup action and the
    compensating Close.  In wireguardPeerServer.Request the capture is the
    first call of all.  In upClient.Request the guarded initialization comes
    first: it may run initFunc, and when it returns an error Request returns
    at once, with no capture; when it returns nil, the capture is the first
    call after it. *)
Theorem capture_precedes_continuation :
  (forall c request (m : machine wireguardPeerServer),
     exists r m',
       wireguardPeerServer_Request c request m = Some (r, m') /\
       hd_error (new_events m m') = Some (EvContextWithValues c) /\
       captured_first c (new_events m m') = true)
  /\
  (forall c request opts (m : machine upClient),
     initMutex (elem m) = false ->
     exists r m' i m1,
       upClient_Request c request opts m = Some (r, m') /\
       upClient_init c m = Some (i, m1) /\
       (new_events m m1 = [] \/
        new_events m m1 = [EvInitFunc c (vppConn (elem m))]) /\
       match i with
       | Some e => r = (None, Some e) /\ m' = m1
       | None =>
         hd_error (new_events m1 m') = Some (EvContextWithValues c) /\
         captured_first c (new_events m1 m') = true /\
         new_events m m' = new_events m m1 ++ new_events m1 m'
       end).
Proof.
  split.
  - intros c request m.
    destruct (wireguardPeerServer_Request_cases c request m)
      as (r & m' & conn & nerr & w2 & R & _ & _ & _ & Hc).
    exists r, m'. split; [exact R |].
    destruct Hc as [(e & _ & _ & _ & T)
                   | [(_ & _ & _ & T) | (_ & e & w3 & ce & _ & _ & T)]];
      rewrite (new_events_app m m' _ T).
    + rewrite <- (app_nil_r (entered c request [])). apply captured_first_entered.
    + apply captured_first_entered.
    + apply captured_first_entered.
  - intros c request opts m F.
    destruct (upClient_Request_returns c request opts m F) as (r & m' & R & _).
    destruct (upClient_init c m) as [[i m1] |] eqn:I;
      [| rewrite (upClient_Request_blocked c request opts m I) in R; discriminate].
    exists r, m', i, m1. split; [exact R |]. split; [reflexivity |].
    destruct (upClient_init_events c m i m1 I) as (l & T & L).
    split; [rewrite (new_events_app m m1 l T); exact L |].
    destruct i as [e |].
    + rewrite (upClient_Request_init_error c request opts m m1 e I) in R.
      inversion R. split; reflexivity.
    + destruct (upClient_Request_after_init c request opts m m1 I)
        as (r0 & m0 & conn & nerr & w2 & R0 & _ & _ & _ & Hc).
      rewrite R0 in R. inversion R; subst r0 m0. clear R.
      assert (E : exists rest, trace m' = trace m1 ++ entered c request opts ++ rest).
      { destruct Hc as [(e & _ & _ & _ & T')
                       | [(_ & _ & _ & T') | (_ & e & w3 & ce & _ & _ & T')]].
        - exists []. rewrite app_nil_r. exact T'.
        - eexists. exact T'.
        - eexists. exact T'. }
      destruct E as (rest & E).
      rewrite (new_events_app m1 m' _ E), (new_events_app m m1 l T).
      split; [apply captured_first_entered |].
      split; [apply captured_first_entered |].
      apply new_events_app. rewrite E, T, <- !app_assoc. reflexivity.
Qed.

(** C4, as the code has it.  A Request never returns a Connection together
    with an error.  It returns either nil and an error, or a nil error and
    exactly the Connection the continuation returned with a nil error
    (non-nil whenever the continuation's is).  When the setup action failed
    after the continuation succeeded, the result is nil and an error, and the
    calls of the compensating Close, made with the postponed context on the
    continuation's connection, are in the trace when Request returns. *)
Theorem Request_returns_connection_or_error :
  (forall c request opts (m : machine upClient),
     initMutex (elem m) = false ->
     exists conn err m',
     upClient_Request c request opts m = Some ((conn, err), m') /\
     (conn = None \/ err = None) /\
     ((conn = None /\ exists e, err = Some e)
      \/
      (err = None /\
       exists m1 w2,
         upClient_init c m = Some (None, m1) /\
         nextClientRequest c c request opts (world m1) = ((conn, None), w2))) /\
     (forall m1 conn' w2 e w3,
        upClient_init c m = Some (None, m1) ->
        nextClientRequest c c request opts (world m1) = ((conn', None), w2) ->
        up c (vppConn (elem m1)) (loadIfIndex (elem m1))
          (IsClient (mkIface ptr_upClient (this m1))) w2 = (Some e, w3) ->
        conn = None /\
        (exists closeErr, err = Some (rollbackError e closeErr)) /\
        exists before,
          trace m' = before ++ upClient_rolled_back c conn' opts))
  /\
  (forall c request (m : machine wireguardPeerServer),
     exists conn err m',
     wireguardPeerServer_Request c request m = Some ((conn, err), m') /\
     (conn = None \/ err = None) /\
     ((conn = None /\ exists e, err = Some e)
      \/
      (err = None /\
       exists w2, nextServerRequest c c request (world m) = ((conn, None), w2))) /\
     (forall conn' w2 e w3,
        nextServerRequest c c request (world m) = ((conn', None), w2) ->
        createPeer c conn' (peer_vppConn (elem m))
          (IsClient (mkIface ptr_wireguardPeerServer (this m))) w2 = (Some e, w3) ->
        conn = None /\
        (exists closeErr, err = Some (rollbackError e closeErr)) /\
        exists before,
          trace m'
          = before ++ peer_rolled_back c conn' (peer_vppConn (elem m))
                        (IsClient (mkIface ptr_wireguardPeerServer (this m))))).
Proof.
  split.
  - intros c request opts m F.
    destruct (upClient_Request_returns c request opts m F)
      as ([conn err] & m' & R & _).
    exists conn, err, m'. split; [exact R |].
    destruct (upClient_init c m) as [[i m1] |] eqn:I;
      [| rewrite (upClient_Request_blocked c request opts m I) in R; discriminate].
    destruct i as [e |].
    + rewrite (upClient_Request_init_error c request opts m m1 e I) in R.
      inversion R; subst. split; [left; reflexivity |].
      split; [left; split; [reflexivity | exists e; reflexivity] |].
      intros m1' conn' w2 e' w3 I'. discriminate.
    + destruct (upClient_Request_after_init c request opts m m1 I)
        as (r0 & m0 & conn0 & nerr & w2 & R0 & _ & _ & N & Hc).
      rewrite R0 in R. inversion R; subst r0 m0. clear R.
      destruct Hc as [(e & En & Er & _ & T)
                     | [(En & Er & U & T) | (En & e & w3 & ce & U & Er & T)]];
        inversion Er; subst; clear Er.
      * split; [left; reflexivity |].
        split; [left; split; [reflexivity | exists e; reflexivity] |].
        intros m1' conn' w2' e' w3' I' N'. inversion I'; subst m1'.
        rewrite N in N'. discriminate.
      * split; [right; reflexivity |].
        split; [right; split; [reflexivity | exists m1, w2; split; [reflexivity | exact N]] |].
        intros m1' conn' w2' e' w3' I' N' U'. inversion I'; subst m1'.
        rewrite N in N'. inversion N'; subst conn' w2'.
        rewrite U in U'. discriminate.
      * split; [left; reflexivity |].
        split; [left; split; [reflexivity | eexists; reflexivity] |].
        intros m1' conn' w2' e' w3' I' N' U'. inversion I'; subst m1'.
        rewrite N in N'. inversion N'; subst conn' w2'.
        rewrite U in U'. inversion U'; subst e' w3'.
        split; [reflexivity |]. split; [exists ce; reflexivity |].
        eexists. rewrite T, !app_assoc. reflexivity.
  - intros c request m.
    destruct (wireguardPeerServer_Request_cases c request m)
      as ([conn err] & m' & conn0 & nerr & w2 & R & _ & _ & N & Hc).
    exists conn, err, m'. split; [exact R |]. clear R.
    destruct Hc as [(e & En & Er & _ & T)
                   | [(En & Er & P & T) | (En & e & w3 & ce & P & Er & T)]];
      inversion Er; subst; clear Er.
    + split; [left; reflexivity |].
      split; [left; split; [reflexivity | exists e; reflexivity] |].
      intros conn' w2' e' w3' N'. rewrite N in N'. discriminate.
    + split; [right; reflexivity |].
      split; [right; split; [reflexivity | exists w2; exact N] |].
      intros conn' w2' e' w3' N' P'.
      rewrite N in N'. inversion N'; subst conn' w2'.
      rewrite P in P'. discriminate.
    + split; [left; reflexivity |].
      split; [left; split; [reflexivity | eexists; reflexivity] |].
      intros conn' w2' e' w3' N' P'.
      rewrite N in N'. inversion N'; subst conn' w2'.
      rewrite P in P'. inversion P'; subst e' w3'.
      split; [reflexivity |]. split; [exists ce; reflexivity |].
      eexists. rewrite T, !app_assoc. reflexivity.
Qed.

(** ** The directionality of peer calls *)

Lemma directions_are_app b l1 l2 :
  directions_are b (l1 ++ l2) = (directions_are b l1 && directions_are b l2)%bool.
Proof. apply forallb_app. Qed.

Lemma directions_are_In b l e b' :
  directions_are b l = true -> In e l -> peer_direction e = Some b' -> b' = b.
Proof.
  unfold directions_are. rewrite forallb_forall. intros A I D.
  specialize (A e I). rewrite D in A. apply Bool.eqb_prop, A.
Qed.

(** Every run of Requests and Closes on a peer server returns, keeps the
    address of the server, and gives each createPeer and delPeer the
    directionality [IsClient] has for that address. *)
Lemma peer_run_directions ops (m : machine wireguardPeerServer) :
  exists m' l,
    peer_run ops m = Some (tt, m') /\
    this m' = this m /\
    trace m' = trace m ++ l /\
    directions_are (IsClient (mkIface ptr_wireguardPeerServer (this m))) l = true.
Proof.
  revert m. induction ops as [| op ops IH]; intros m.
  - exists m, []. rewrite app_nil_r. repeat split.
  - destruct op as [c request | c conn]; cbn [peer_run]; unfold bind at 1.
    + destruct (wireguardPeerServer_Request_cases c request m)
        as (r & m1 & conn & nerr & w2 & R & S1 & _ & _ & Hc).
      rewrite R.
      destruct (IH m1) as (m' & l & P & S2 & T & D).
      rewrite S1 in S2, D.
      assert (E : exists l1, trace m1 = trace m ++ l1 /\
                  directions_are
                    (IsClient (mkIface ptr_wireguardPeerServer (this m))) l1 = true).
      { destruct Hc as [(e & _ & _ & _ & T1)
                       | [(_ & _ & _ & T1) | (_ & e & w3 & ce & _ & _ & T1)]];
          (eexists; split; [exact T1 |]); cbn; rewrite ?eqb_reflx; reflexivity. }
      destruct E as (l1 & T1 & D1).
      exists m', (l1 ++ l). split; [exact P |]. split; [exact S2 |].
      split; [rewrite T, T1, app_assoc; reflexivity |].
      rewrite directions_are_app, D1, D. reflexivity.
    + rewrite wireguardPeerServer_Close_eq. cbv zeta.
      destruct (delPeer _ _ _ _ _) as [d w1].
      destruct (nextServerClose _ _ _ _) as [r w2].
      match goal with |- context [peer_run ops ?x] => destruct (IH x) as (m' & l & P & S2 & T & D) end.
      cbn [this trace] in S2, T, D.
      eexists m', (_ ++ l). split; [exact P |]. split; [exact S2 |].
      split; [rewrite T, app_assoc; reflexivity |].
      rewrite directions_are_app, D. cbn. rewrite eqb_reflx. reflexivity.
Qed.

(** C8.  Every run of Requests and Closes on one wireguardPeerServer returns,
    and in it the directionality given to delPeer in any Close equals the one
    given to createPeer in any Request: both are what [metadata.IsClient]
    answers for that server. *)
Theorem peer_directionality_is_stable ops (m : machine wireguardPeerServer) :
  exists m',
    peer_run ops m = Some (tt, m') /\
    forall c1 conn1 vpp1 b1 c2 conn2 vpp2 b2,
      In (EvCreatePeer c1 conn1 vpp1 b1) (new_events m m') ->
      In (EvDelPeer c2 conn2 vpp2 b2) (new_events m m') ->
      b2 = b1 /\ b1 = IsClient (mkIface ptr_wireguardPeerServer (this m)).
Proof.
  destruct (peer_run_directions ops m) as (m' & l & R & _ & T & D).
  exists m'. split; [exact R |].
  intros c1 conn1 vpp1 b1 c2 conn2 vpp2 b2 I1 I2.
  rewrite (new_events_app m m' l T) in I1, I2.
  pose proof (directions_are_In _ _ _ b1 D I1 eq_refl) as E1.
  pose proof (directions_are_In _ _ _ b2 D I2 eq_refl) as E2.
  split; congruence.
Qed.

(** ** The way a Request went *)

(** With the mutex free, a Request on an upClient returns, along one of the
    four ways; the receiver keeps its address, its configuration and a free
    mutex, and its latch changes only when initFunc ran and succeeded. *)
Lemma upClient_Request_path c request opts (m : machine upClient) :
  initMutex (elem m) = false ->
  let vpp := vppConn (elem m) in
  let load := loadIfIndex (elem m) in
  let b := IsClient (mkIface ptr_upClient (this m)) in
  exists r m' p ran conn ierr,
    upClient_Request c request opts m = Some (r, m') /\
    trace m' = trace m ++ upClient_path_events p ran c request opts vpp load b conn /\
    (this m' = this m /\ ctx (elem m') = ctx (elem m) /\ vppConn (elem m') = vpp /\
     loadIfIndex (elem m') = load /\ initMutex (elem m') = false) /\
    (if ran
     then (0 <? inited (elem m))%Z = false /\ fst (initFunc c vpp (world m)) = ierr
     else (0 < inited (elem m))%Z /\ ierr = None) /\
    inited (elem m')
    = (if ran then match ierr with None => 1 | Some _ => inited (elem m) end
       else inited (elem m))%Z /\
    match p with
    | InitFailed => ran = true /\ exists e, ierr = Some e /\ r = (None, Some e)
    | ContinuationFailed => ierr = None /\ exists e, r = (None, Some e)
    | Established => ierr = None /\ r = (conn, None)
    | RolledBack => ierr = None /\ exists e ce, r = (None, Some (rollbackError e ce))
    end.
Proof.
  intros F vpp load b.
  assert (A : forall m1 (ran : bool) (ierr : option error),
             upClient_init c m = Some (None, m1) ->
             this m1 = this m -> ctx (elem m1) = ctx (elem m) ->
             vppConn (elem m1) = vpp -> loadIfIndex (elem m1) = load ->
             initMutex (elem m1) = false ->
             trace m1 = trace m ++ (if ran then [EvInitFunc c vpp] else []) ->
             ierr = None ->
             exists r m' p conn,
               upClient_Request c request opts m = Some (r, m') /\
               trace m' = trace m
                          ++ upClient_path_events p ran c request opts vpp load b conn /\
               (this m' = this m /\ ctx (elem m') = ctx (elem m) /\
                vppConn (elem m') = vpp /\ loadIfIndex (elem m') = load /\
                initMutex (elem m') = false) /\
               inited (elem m') = inited (elem m1) /\
               match p with
               | InitFailed => ran = true /\ exists e, ierr = Some e /\ r = (None, Some e)
               | ContinuationFailed => ierr = None /\ exists e, r = (None, Some e)
               | Established => ierr = None /\ r = (conn, None)
               | RolledBack =>
                 ierr = None /\ exists e ce, r = (None, Some (rollbackError e ce))
               end).
  { intros m1 ran ierr I S1 S2 S3 S4 S5 T1 E.
    destruct (upClient_Request_after_init c request opts m m1 I)
      as (r & m' & conn & nerr & w2 & R & S & El & _ & Hc).
    rewrite S1, S3, S4 in Hc. fold vpp load b in Hc.
    exists r, m'.
    destruct Hc as [(e & _ & Er & _ & T)
                   | [(_ & Er & _ & T) | (_ & e & w3 & ce & _ & Er & T)]].
    - exists ContinuationFailed, conn. split; [exact R |].
      split; [rewrite T, T1, <- app_assoc; reflexivity |].
      rewrite El, S. repeat split; try assumption. exists e. exact Er.
    - exists Established, conn. split; [exact R |].
      split; [rewrite T, T1, <- app_assoc; reflexivity |].
      rewrite El, S. repeat split; assumption.
    - exists RolledBack, conn. split; [exact R |].
      split; [rewrite T, T1, <- app_assoc; reflexivity |].
      rewrite El, S. repeat split; try assumption. exists e, ce. exact Er. }
  pose proof (upClient_init_eq c m) as I.
  destruct (0 <? inited (elem m))%Z eqn:L.
  - destruct (A m false None I) as (r & m' & p & conn & R & T & K & La & Hp);
      try reflexivity; [exact F | rewrite app_nil_r; reflexivity |].
    exists r, m', p, false, conn, None.
    split; [exact R |]. split; [exact T |]. split; [exact K |].
    split; [split; [apply Z.ltb_lt, L | reflexivity] |].
    split; [exact La | exact Hp].
  - rewrite F in I. fold vpp in I.
    destruct (initFunc c vpp (world m)) as [[e |] w] eqn:Ie.
    + eexists (None, Some e), _, InitFailed, true, None, (Some e).
      split; [apply upClient_Request_init_error, I |].
      cbn. repeat split. exists e. split; reflexivity.
    + destruct (A _ true None I) as (r & m' & p & conn & R & T & K & La & Hp);
        try reflexivity.
      exists r, m', p, true, conn, None.
      split; [exact R |]. split; [exact T |]. split; [exact K |].
      split; [split; reflexivity |].
      split; [exact La | exact Hp].
Qed.

(** A Request on a peer server returns, along one of three ways, and leaves
    the server as it was. *)
Lemma wireguardPeerServer_Request_path c request (m : machine wireguardPeerServer) :
  let vpp := peer_vppConn (elem m) in
  let b := IsClient (mkIface ptr_wireguardPeerServer (this m)) in
  exists r m' p conn,
    wireguardPeerServer_Request c request m = Some (r, m') /\
    trace m' = trace m ++ peer_path_events p c request vpp b conn /\
    this m' = this m /\ elem m' = elem m /\
    match p with
    | InitFailed => False
    | ContinuationFailed => exists e, r = (None, Some e)
    | Established => r = (conn, None)
    | RolledBack => exists e ce, r = (None, Some (rollbackError e ce))
    end.
Proof.
  intros vpp b.
  destruct (wireguardPeerServer_Request_cases c request m)
    as (r & m' & conn & nerr & w2 & R & S & El & _ & Hc).
  fold vpp b in Hc. exists r, m'.
  destruct Hc as [(e & _ & Er & _ & T)
                 | [(_ & Er & _ & T) | (_ & e & w3 & ce & _ & Er & T)]].
  - exists ContinuationFailed, conn. repeat split; try assumption. exists e. exact Er.
  - exists Established, conn. repeat split; assumption.
  - exists RolledBack, conn. repeat split; try assumption. exists e, ce. exact Er.
Qed.

(** ** Counting calls *)

Lemma count_events_app p l1 l2 :
  count_events p (l1 ++ l2) = count_events p l1 + count_events p l2.
Proof. unfold count_events. rewrite filter_app, length_app. reflexivity. Qed.

(** An upClient whose latch is set is not changed by any run of Requests and
    Closes, and initFunc is not called in it; the mutex is not looked at. *)
Lemma up_run_inited ops (m : machine upClient) :
  (0 < inited (elem m))%Z ->
  exists m' l,
    up_run ops m = Some (tt, m') /\
    elem m' = elem m /\ this m' = this m /\
    trace m' = trace m ++ l /\
    count_events is_initFunc l = 0.
Proof.
  revert m. induction ops as [| op ops IH]; intros m L.
  - exists m, []. rewrite app_nil_r. repeat split.
  - destruct op as [c request opts | c conn opts]; cbn [up_run]; unfold bind at 1.
    + pose proof (upClient_init_inited c m L) as I.
      destruct (upClient_Request_after_init c request opts m m I)
        as (r & m1 & conn & nerr & w2 & R & S & El & _ & Hc).
      rewrite R.
      assert (L1 : (0 < inited (elem m1))%Z) by (rewrite El; exact L).
      destruct (IH m1 L1) as (m' & l & P & E2 & S2 & T & N).
      assert (X : exists l1, trace m1 = trace m ++ l1 /\
                             count_events is_initFunc l1 = 0).
      { destruct Hc as [(e & _ & _ & _ & T1)
                       | [(_ & _ & _ & T1) | (_ & e & w3 & ce & _ & _ & T1)]];
          (eexists; split; [exact T1 | reflexivity]). }
      destruct X as (l1 & T1 & N1).
      exists m', (l1 ++ l). split; [exact P |].
      split; [rewrite E2; exact El |]. split; [rewrite S2; exact S |].
      split; [rewrite T, T1, app_assoc; reflexivity |].
      rewrite count_events_app, N1, N. reflexivity.
    + rewrite upClient_Close_eq.
      destruct (nextClientClose c c conn opts (world m)) as [r w].
      match goal with
      | |- context [up_run ops ?x] =>
        destruct (IH x) as (m' & l & P & E2 & S2 & T & N); [exact L |]
      end.
      cbn [this elem trace] in E2, S2, T.
      exists m', ([EvNextClose c c conn opts] ++ l). split; [exact P |].
      split; [exact E2 |]. split; [exact S2 |].
      split; [rewrite T, app_assoc; reflexivity |].
      rewrite count_events_app, N. reflexivity.
Qed.

(** X1.  The mutex of the guarded initialization.  Called with the mutex
    free, init returns with the mutex free again, whether initFunc ran or
    not and whether it failed or not.  It keeps the address and the
    configuration of the client; the only value it ever stores in the latch
    is 1; and it returns nil only with the latch set. *)
Theorem upClient_init_releases_mutex c (m : machine upClient) :
  initMutex (elem m) = false ->
  exists err m',
    upClient_init c m = Some (err, m') /\
    initMutex (elem m') = false /\
    this m' = this m /\
    ctx (elem m') = ctx (elem m) /\
    vppConn (elem m') = vppConn (elem m) /\
    loadIfIndex (elem m') = loadIfIndex (elem m) /\
    (inited (elem m') = inited (elem m) \/ inited (elem m') = 1%Z) /\
    (err = None -> (0 < inited (elem m'))%Z).
Proof.
  intros F. rewrite upClient_init_eq.
  destruct (0 <? inited (elem m))%Z eqn:L.
  - exists None, m. split; [reflexivity |].
    repeat (split; [reflexivity || assumption |]).
    split; [left; reflexivity |].
    intros _. apply Z.ltb_lt, L.
  - rewrite F. destruct (initFunc c (vppConn (elem m)) (world m)) as [[e |] w].
    + eexists _, _. split; [reflexivity |]. cbn.
      repeat (split; [reflexivity |]).
      split; [left; reflexivity | discriminate].
    + eexists _, _. split; [reflexivity |]. cbn.
      repeat (split; [reflexivity |]).
      split; [right; reflexivity | intros _; reflexivity].
Qed.

(** X2.  What a run of Requests and Closes keeps.  Started with the mutex
    free, every run on an upClient returns with the mutex free; the address
    and the configuration of the client are unchanged; the latch is unchanged
    or 1, and a latch that was set is unchanged. *)
Theorem up_run_keeps_client ops (m : machine upClient) :
  initMutex (elem m) = false ->
  exists m',
    up_run ops m = Some (tt, m') /\
    initMutex (elem m') = false /\
    this m' = this m /\
    ctx (elem m') = ctx (elem m) /\
    vppConn (elem m') = vppConn (elem m) /\
    loadIfIndex (elem m') = loadIfIndex (elem m) /\
    (inited (elem m') = inited (elem m) \/ inited (elem m') = 1%Z) /\
    ((0 < inited (elem m))%Z -> inited (elem m') = inited (elem m)).
Proof.
  revert m. induction ops as [| op ops IH]; intros m F.
  - exists m. split; [reflexivity |].
    repeat (split; [reflexivity || assumption |]).
    split; [left; reflexivity | intros _; reflexivity].
  - destruct op as [c request opts | c conn opts]; cbn [up_run]; unfold bind at 1.
    + destruct (upClient_Request_path c request opts m F)
        as (r & m1 & p & ran & conn & ierr & R & _ & (S1 & S2 & S3 & S4 & F1)
            & Hran & La & _).
      rewrite R.
      destruct (IH m1 F1) as (m' & P & F' & T1 & T2 & T3 & T4 & Lb & Lc).
      exists m'. split; [exact P |]. split; [exact F' |].
      split; [congruence |]. split; [congruence |].
      split; [congruence |]. split; [congruence |].
      assert (La' : (inited (elem m1) = inited (elem m) \/ inited (elem m1) = 1%Z)
                    /\ ((0 < inited (elem m))%Z -> inited (elem m1) = inited (elem m))).
      { destruct ran.
        - destruct Hran as (L0 & _). split.
          + destruct ierr; [left | right]; exact La.
          + intros L. apply Z.ltb_lt in L. congruence.
        - split; [left; exact La | intros _; exact La]. }
      destruct La' as (La1 & La2). split.
      * destruct Lb as [Lb | Lb]; [rewrite Lb; exact La1 | right; exact Lb].
      * intros L. rewrite <- (La2 L). apply Lc. rewrite (La2 L). exact L.
    + rewrite upClient_Close_eq.
      destruct (nextClientClose c c conn opts (world m)) as [r w].
      match goal with
      | |- context [up_run ops ?x] =>
        destruct (IH x) as (m' & P & F' & T1 & T2 & T3 & T4 & Lb & Lc); [exact F |]
      end.
      cbn [this elem] in *.
      exists m'. repeat (split; [assumption |]). exact Lc.
Qed.

(** X3.  Once the latch is set, no run of Requests and Closes calls initFunc
    again or changes the client, even while the mutex is held. *)
Theorem up_run_inited_never_inits ops (m : machine upClient) :
  (0 < inited (elem m))%Z ->
  exists m',
    up_run ops m = Some (tt, m') /\
    elem m' = elem m /\
    count_events is_initFunc (new_events m m') = 0.
Proof.
  intros L. destruct (up_run_inited ops m L) as (m' & l & P & E & _ & T & N).
  exists m'. split; [exact P |]. split; [exact E |].
  rewrite (new_events_app m m' l T). exact N.
Qed.

(** X4.  Initialization happens once.  When initFunc succeeds whenever it is
    called, a run of Requests and Closes on an upClient with the latch unset
    and the mutex free calls initFunc exactly once if the run has a Request,
    and not at all otherwise; the latch ends as 1 in the first case and 0 in
    the second. *)
Theorem up_run_inits_once ops (m : machine upClient) :
  (forall c v w, fst (initFunc c v w) = None) ->
  inited (elem m) = 0%Z -> initMutex (elem m) = false ->
  exists m' l,
    up_run ops m = Some (tt, m') /\
    trace m' = trace m ++ l /\
    count_events is_initFunc l = (if existsb is_up_request ops then 1 else 0) /\
    inited (elem m') = (if existsb is_up_request ops then 1 else 0)%Z.
Proof.
  intros Ok. revert m. induction ops as [| op ops IH]; intros m Z0 F.
  - exists m, []. rewrite app_nil_r. repeat (split; [reflexivity |]). exact Z0.
  - destruct op as [c request opts | c conn opts]; cbn [up_run existsb is_up_request];
      unfold bind at 1.
    + destruct (upClient_Request_path c request opts m F)
        as (r & m1 & p & ran & conn & ierr & R & T1 & _ & Hran & La & Hp).
      rewrite R.
      destruct ran; [| destruct Hran as (L & _); rewrite Z0 in L; discriminate].
      destruct Hran as (_ & Ie). rewrite Ok in Ie. subst ierr.
      assert (L1 : (0 < inited (elem m1))%Z) by (rewrite La; reflexivity).
      destruct (up_run_inited ops m1 L1) as (m' & l & P & E & _ & T & N).
      match type of T1 with _ = _ ++ ?x => exists m', (x ++ l) end.
      split; [exact P |].
      split; [rewrite T, T1, app_assoc; reflexivity |].
      split; [| rewrite E; exact La].
      rewrite count_events_app, N.
      destruct p; [destruct Hp as (_ & e & Ee & _); discriminate | | |]; reflexivity.
    + rewrite upClient_Close_eq.
      destruct (nextClientClose c c conn opts (world m)) as [r w].
      match goal with
      | |- context [up_run ops ?x] =>
        destruct (IH x) as (m' & l & P & T & N & La); [exact Z0 | exact F |]
      end.
      cbn [trace] in T.
      exists m', ([EvNextClose c c conn opts] ++ l). split; [exact P |].
      split; [rewrite T, app_assoc; reflexivity |].
      split; [rewrite count_events_app, N; reflexivity | exact La].
Qed.

(** X5.  A failed initialization is tried again, and keeps the chain shut.
    While initFunc fails whenever it is called, every Request of a run on an
    upClient with the latch unset calls initFunc once more, the continuation's
    Request is never called, and the latch stays unset. *)
Theorem up_run_retries_failed_init ops (m : machine upClient) :
  (forall c v w, fst (initFunc c v w) <> None) ->
  inited (elem m) = 0%Z -> initMutex (elem m) = false ->
  exists m' l,
    up_run ops m = Some (tt, m') /\
    trace m' = trace m ++ l /\
    count_events is_initFunc l = List.length (filter is_up_request ops) /\
    count_events is_next_request l = 0 /\
    inited (elem m') = 0%Z.
Proof.
  intros Ko. revert m. induction ops as [| op ops IH]; intros m Z0 F.
  - exists m, []. rewrite app_nil_r. repeat (split; [reflexivity |]). exact Z0.
  - destruct op as [c request opts | c conn opts]; cbn [up_run filter is_up_request];
      unfold bind at 1.
    + destruct (upClient_Request_path c request opts m F)
        as (r & m1 & p & ran & conn & ierr & R & T1 & (_ & _ & _ & _ & F1)
            & Hran & La & Hp).
      rewrite R.
      destruct ran; [| destruct Hran as (L & _); rewrite Z0 in L; discriminate].
      destruct Hran as (_ & Ie).
      assert (Ne : ierr <> None) by (rewrite <- Ie; apply Ko).
      destruct p;
        [| destruct Hp as (Hp & _); contradiction
         | destruct Hp as (Hp & _); contradiction
         | destruct Hp as (Hp & _); contradiction].
      destruct Hp as (_ & e & Ee & _). rewrite Ee, Z0 in La.
      destruct (IH m1 La F1) as (m' & l & P & T & N & Nn & Lb).
      match type of T1 with _ = _ ++ ?x => exists m', (x ++ l) end.
      split; [exact P |].
      split; [rewrite T, T1, app_assoc; reflexivity |].
      rewrite !count_events_app, N, Nn. repeat split. exact Lb.
    + rewrite upClient_Close_eq.
      destruct (nextClientClose c c conn opts (world m)) as [r w].
      match goal with
      | |- context [up_run ops ?x] =>
        destruct (IH x) as (m' & l & P & T & N & Nn & Lb); [exact Z0 | exact F |]
      end.
      cbn [trace] in T.
      exists m', ([EvNextClose c c conn opts] ++ l). split; [exact P |].
      split; [rewrite T, app_assoc; reflexivity |].
      rewrite !count_events_app, N, Nn. repeat split. exact Lb.
Qed.

(** ** One Request, call by call *)

Ltac up_request_paths c request opts m F :=
  let r := fresh "r" in
  let m' := fresh "m'" in
  destruct (upClient_Request_path c request opts m F)
    as (r & m' & p & ran & conn & ierr & R & T & K & Hran & La & Hp);
  exists r, m'; split; [exact R |]; rewrite (new_events_app m m' _ T).

Ltac peer_request_paths c request m :=
  let r := fresh "r" in
  let m' := fresh "m'" in
  destruct (wireguardPeerServer_Request_path c request m)
    as (r & m' & p & conn & R & T & _ & _ & Hp);
  exists r, m'; split; [exact R |]; rewrite (new_events_app m m' _ T).

(** X6.  The postponed context is released.  In a Request the function that
    makes the postponed context is called at most once, and its cancel
    function is called as often; when it was called, the cancel of that
    postponed context is the last call of the Request. *)
Theorem Request_releases_postponed_context :
  (forall c request opts (m : machine upClient),
     initMutex (elem m) = false ->
     exists r m',
       upClient_Request c request opts m = Some (r, m') /\
       count_events is_postponeCtxFunc (new_events m m')
       = count_events is_cancelClose (new_events m m') /\
       count_events is_postponeCtxFunc (new_events m m') <= 1 /\
       (count_events is_postponeCtxFunc (new_events m m') = 1 ->
        last (new_events m m') (EvContextWithValues c) = EvCancelClose (Postponed c)))
  /\
  (forall c request (m : machine wireguardPeerServer),
     exists r m',
       wireguardPeerServer_Request c request m = Some (r, m') /\
       count_events is_postponeCtxFunc (new_events m m')
       = count_events is_cancelClose (new_events m m') /\
       count_events is_postponeCtxFunc (new_events m m') <= 1 /\
       (count_events is_postponeCtxFunc (new_events m m') = 1 ->
        last (new_events m m') (EvContextWithValues c) = EvCancelClose (Postponed c))).
Proof.
  split.
  - intros c request opts m F. up_request_paths c request opts m F.
    destruct p, ran; cbn; (split; [reflexivity |]); (split; [lia |]);
      intros E; (discriminate || reflexivity).
  - intros c request m. peer_request_paths c request m.
    destruct p; cbn; (split; [reflexivity |]); (split; [lia |]);
      intros E; (discriminate || reflexivity).
Qed.

(** X7.  A Request closes only when it fails.  A Request that returns a nil
    error has made no call of a Close (continuation's Close, delPeer, the
    postponed context and its cancel); a Request in which such a call was
    made returns nil and the error of the rollback. *)
Theorem Request_closes_only_on_failure :
  (forall c request opts (m : machine upClient),
     initMutex (elem m) = false ->
     exists r m',
       upClient_Request c request opts m = Some (r, m') /\
       (snd r = None ->
        forallb (fun e => negb (is_close_call e)) (new_events m m') = true) /\
       (existsb is_close_call (new_events m m') = true ->
        exists e ce, r = (None, Some (rollbackError e ce))))
  /\
  (forall c request (m : machine wireguardPeerServer),
     exists r m',
       wireguardPeerServer_Request c request m = Some (r, m') /\
       (snd r = None ->
        forallb (fun e => negb (is_close_call e)) (new_events m m') = true) /\
       (existsb is_close_call (new_events m m') = true ->
        exists e ce, r = (None, Some (rollbackError e ce)))).
Proof.
  split.
  - intros c request opts m F. up_request_paths c request opts m F.
    destruct p.
    + destruct Hp as (_ & e & _ & Er). subst r.
      destruct ran; cbn; (split; [discriminate | discriminate]).
    + destruct Hp as (_ & e & Er). subst r.
      destruct ran; cbn; (split; [discriminate | discriminate]).
    + destruct Hp as (_ & Er). subst r.
      destruct ran; cbn; (split; [reflexivity | discriminate]).
    + destruct Hp as (_ & e & ce & Er). subst r.
      destruct ran; cbn; (split; [discriminate | intros _; exists e, ce; reflexivity]).
  - intros c request m. peer_request_paths c request m.
    destruct p.
    + contradiction.
    + destruct Hp as (e & Er). subst r. cbn. split; discriminate.
    + subst r. cbn. split; [reflexivity | discriminate].
    + destruct Hp as (e & ce & Er). subst r. cbn.
      split; [discriminate | intros _; exists e, ce; reflexivity].
Qed.

(** X8.  Which context a call gets.  The calls of a Request fall in two
    parts: first calls that are given the caller's context and no other,
    then, from the making of the postponed context on, calls that are given
    that postponed context and no other.  The context stored in the upClient
    is given to no call. *)
Theorem Request_uses_live_then_postponed_context :
  (forall c request opts (m : machine upClient),
     initMutex (elem m) = false ->
     exists r m',
       upClient_Request c request opts m = Some (r, m') /\
       exists l1 l2,
         new_events m m' = l1 ++ l2 /\
         forallb (uses_only c) l1 = true /\
         forallb (uses_only (Postponed c)) l2 = true /\
         (l2 = [] \/ hd_error l2 = Some (EvPostponeCtxFunc (Postponed c))))
  /\
  (forall c request (m : machine wireguardPeerServer),
     exists r m',
       wireguardPeerServer_Request c request m = Some (r, m') /\
       exists l1 l2,
         new_events m m' = l1 ++ l2 /\
         forallb (uses_only c) l1 = true /\
         forallb (uses_only (Postponed c)) l2 = true /\
         (l2 = [] \/ hd_error l2 = Some (EvPostponeCtxFunc (Postponed c)))).
Proof.
  split.
  - intros c request opts m F. up_request_paths c request opts m F.
    destruct p;
      [ eexists _, []
      | eexists _, []
      | eexists _, []
      | exists ((if ran then [EvInitFunc c (vppConn (elem m))] else [])
                ++ entered c request opts
                ++ [EvUp c (vppConn (elem m)) (loadIfIndex (elem m))
                      (IsClient (mkIface ptr_upClient (this m)))]),
               (upClient_rolled_back c conn opts) ];
      (split; [rewrite ?app_nil_r, <- ?app_assoc; reflexivity |]);
      destruct ran; cbn; rewrite ?context_eqb_refl;
      (split; [reflexivity |]); (split; [reflexivity |]);
      ((left; reflexivity) || (right; reflexivity)).
  - intros c request m. peer_request_paths c request m.
    destruct p;
      [ contradiction
      | eexists _, []
      | eexists _, []
      | exists (entered c request []
                ++ [EvCreatePeer c conn (peer_vppConn (elem m))
                      (IsClient (mkIface ptr_wireguardPeerServer (this m)))]),
               (peer_rolled_back c conn (peer_vppConn (elem m))
                  (IsClient (mkIface ptr_wireguardPeerServer (this m)))) ];
      (split; [rewrite ?app_nil_r, <- ?app_assoc; reflexivity |]);
      cbn; rewrite ?context_eqb_refl;
      (split; [reflexivity |]); (split; [reflexivity |]);
      ((left; reflexivity) || (right; reflexivity)).
Qed.

(** X9.  The continuation is entered by an initialized client only.  After a
    Request on an upClient in which the continuation's Request was called,
    and after every Request that returned a nil error, the latch is set. *)
Theorem upClient_Request_enters_initialized c request opts (m : machine upClient) :
  initMutex (elem m) = false ->
  exists r m',
    upClient_Request c request opts m = Some (r, m') /\
    (existsb is_next_request (new_events m m') = true -> (0 < inited (elem m'))%Z) /\
    (snd r = None -> (0 < inited (elem m'))%Z).
Proof.
  intros F. up_request_paths c request opts m F.
  assert (L : p <> InitFailed -> (0 < inited (elem m'))%Z).
  { intros Np. rewrite La. destruct ran.
    - destruct Hran as (_ & Ie).
      destruct p; try contradiction; destruct Hp as (E & _); rewrite E; reflexivity.
    - destruct Hran as (L & _). exact L. }
  destruct p.
  - destruct Hp as (Er & e & _ & Ee). subst ran r. cbn. split; discriminate.
  - split; intros _; apply L; discriminate.
  - split; intros _; apply L; discriminate.
  - split; intros _; apply L; discriminate.
Qed.

(** X10.  Where the error of a Request comes from.  An error a Request
    returns is the error of the guarded initialization, or the error of the
    continuation's Request, or has the cause of the error of the setup
    action and a text that ends with its text.  The error of a Close is never
    returned in their place. *)
Theorem Request_error_provenance :
  (forall c request opts (m : machine upClient) conn err m',
     upClient_Request c request opts m = Some ((conn, Some err), m') ->
     (exists m1, upClient_init c m = Some (Some err, m1))
     \/
     (exists m1 k w2,
        upClient_init c m = Some (None, m1) /\
        nextClientRequest c c request opts (world m1) = ((k, Some err), w2))
     \/
     (exists m1 k w2 e w3,
        upClient_init c m = Some (None, m1) /\
        nextClientRequest c c request opts (world m1) = ((k, None), w2) /\
        up c (vppConn (elem m1)) (loadIfIndex (elem m1))
          (IsClient (mkIface ptr_upClient (this m1))) w2 = (Some e, w3) /\
        Cause err = Cause e /\
        is_suffix (Error e) (Error err) = true))
  /\
  (forall c request (m : machine wireguardPeerServer) conn err m',
     wireguardPeerServer_Request c request m = Some ((conn, Some err), m') ->
     (exists k w2, nextServerRequest c c request (world m) = ((k, Some err), w2))
     \/
     (exists k w2 e w3,
        nextServerRequest c c request (world m) = ((k, None), w2) /\
        createPeer c k (peer_vppConn (elem m))
          (IsClient (mkIface ptr_wireguardPeerServer (this m))) w2 = (Some e, w3) /\
        Cause err = Cause e /\
        is_suffix (Error e) (Error err) = true)).
Proof.
  split.
  - intros c request opts m conn err m' R.
    destruct (upClient_init c m) as [[i m1] |] eqn:I;
      [| rewrite (upClient_Request_blocked c request opts m I) in R; discriminate].
    destruct i as [e |].
    + rewrite (upClient_Request_init_error c request opts m m1 e I) in R.
      inversion R; subst. left. exists m'. reflexivity.
    + right.
      destruct (upClient_Request_after_init c request opts m m1 I)
        as (r0 & m0 & k & nerr & w2 & R0 & _ & _ & N & Hc).
      rewrite R0 in R. inversion R; subst r0 m0. clear R.
      destruct Hc as [(e & En & Er & _)
                     | [(En & Er & _) | (En & e & w3 & ce & U & Er & _)]];
        inversion Er; subst; clear Er.
      * left. exists m1, k, w2. split; [reflexivity | exact N].
      * right. exists m1, k, w2, e, w3.
        split; [reflexivity |]. split; [exact N |]. split; [exact U |].
        split; [apply rollbackError_Cause | apply rollbackError_keeps_cause].
  - intros c request m conn err m' R.
    destruct (wireguardPeerServer_Request_cases c request m)
      as (r0 & m0 & k & nerr & w2 & R0 & _ & _ & N & Hc).
    rewrite R0 in R. inversion R; subst r0 m0. clear R.
    destruct Hc as [(e & En & Er & _)
                   | [(En & Er & _) | (En & e & w3 & ce & P & Er & _)]];
      inversion Er; subst; clear Er.
    + left. exists k, w2. exact N.
    + right. exists k, w2, e, w3.
      split; [exact N |]. split; [exact P |].
      split; [apply rollbackError_Cause | apply rollbackError_keeps_cause].
Qed.

(** X11.  Close undoes what Request did.  After a Request on a peer server
    returned a connection and a nil error, its last call was createPeer on
    that connection; a Close of that connection, with any context, calls
    delPeer with the same connection, vpp connection and directionality, and
    then the continuation's Close, and nothing else. *)
Theorem peer_Close_undoes_Request c request c2 (m m1 : machine wireguardPeerServer) conn :
  wireguardPeerServer_Request c request m = Some ((conn, None), m1) ->
  exists vpp b r m2,
    last (trace m1) (EvContextWithValues c) = EvCreatePeer c conn vpp b /\
    wireguardPeerServer_Close c2 conn m1 = Some (r, m2) /\
    new_events m1 m2 = [EvDelPeer c2 conn vpp b; EvNextClose c2 c2 conn []].
Proof.
  intros R.
  destruct (wireguardPeerServer_Request_cases c request m)
    as (r0 & m0 & k & nerr & w2 & R0 & S & El & _ & Hc).
  rewrite R0 in R. inversion R; subst r0 m0. clear R.
  destruct Hc as [(e & _ & Er & _)
                 | [(_ & Er & _ & T) | (_ & e & w3 & ce & _ & Er & _)]];
    inversion Er; subst; clear Er.
  exists (peer_vppConn (elem m)), (IsClient (mkIface ptr_wireguardPeerServer (this m))).
  rewrite wireguardPeerServer_Close_eq. cbv zeta. rewrite S, El.
  destruct (delPeer _ _ _ _ _) as [d w4].
  destruct (nextServerClose _ _ _ _) as [r w5].
  eexists r, _. split; [| split; [reflexivity |]].
  - rewrite T. unfold entered.
    change (trace m ++ [EvContextWithValues c; EvNextRequest c c request []] ++ ?x)
      with (trace m ++ [EvContextWithValues c; EvNextRequest c c request []] ++ x).
    rewrite app_assoc. apply last_last.
  - apply new_events_app. reflexivity.
Qed.

(** X12.  The calls of a run on a peer server, counted.  Every run of
    Requests and Closes returns and leaves the server and its address as
    they were.  The continuation's Request was called once per Request;
    createPeer at most as often; a postponed context was made at most as
    often as createPeer was called, and cancelled as often as made; delPeer
    was called once per Close of the run and once per postponed context; and
    the continuation's Close as often as delPeer. *)
Theorem peer_run_accounting ops (m : machine wireguardPeerServer) :
  exists m' l,
    peer_run ops m = Some (tt, m') /\
    trace m' = trace m ++ l /\
    elem m' = elem m /\ this m' = this m /\
    count_events is_next_request l = List.length (filter is_peer_request ops) /\
    count_events is_createPeer l <= count_events is_next_request l /\
    count_events is_postponeCtxFunc l <= count_events is_createPeer l /\
    count_events is_cancelClose l = count_events is_postponeCtxFunc l /\
    count_events is_delPeer l
    = List.length (filter (fun op => negb (is_peer_request op)) ops)
      + count_events is_postponeCtxFunc l /\
    count_events is_next_close l = count_events is_delPeer l.
Proof.
  revert m. induction ops as [| op ops IH]; intros m.
  - exists m, []. rewrite app_nil_r. cbn. repeat split; lia.
  - destruct op as [c request | c conn]; cbn [peer_run filter is_peer_request negb];
      unfold bind at 1.
    + destruct (wireguardPeerServer_Request_path c request m)
        as (r & m1 & p & conn & R & T1 & S1 & E1 & Hp).
      rewrite R.
      destruct (IH m1) as (m' & l & P & T & E & S & N1 & N2 & N3 & N4 & N5 & N6).
      match type of T1 with _ = _ ++ ?x => exists m', (x ++ l) end.
      split; [exact P |].
      split; [rewrite T, T1, app_assoc; reflexivity |].
      split; [congruence |]. split; [congruence |].
      rewrite !count_events_app. unfold count_events in *.
      destruct p; [contradiction | | |]; cbn; repeat split; lia.
    + rewrite wireguardPeerServer_Close_eq. cbv zeta.
      destruct (delPeer _ _ _ _ _) as [d w1].
      destruct (nextServerClose _ _ _ _) as [r w2].
      match goal with
      | |- context [peer_run ops ?x] =>
        destruct (IH x) as (m' & l & P & T & E & S & N1 & N2 & N3 & N4 & N5 & N6)
      end.
      cbn [this elem trace] in T, E, S.
      match type of T with _ = (_ ++ ?x) ++ _ => exists m', (x ++ l) end.
      split; [exact P |].
      split; [rewrite T, app_assoc; reflexivity |].
      split; [exact E |]. split; [exact S |].
      rewrite !count_events_app. unfold count_events in *.
      cbn. repeat split; lia.
Qed.

Ltac in_cases I E :=
  repeat (destruct I as [I | I];
          [subst; cbn in E; first [discriminate | inversion E; subst; auto] |]);
  try contradiction.

(** X13.  The first Request on a new client.  On an upClient as NewClient
    makes it (latch 0, mutex free), a Request returns, and its first call is
    initFunc, with the context of the Request and the vpp connection given to
    NewClient; if up is called in it, it gets that context, that vpp
    connection, the loadIfIndex given to NewClient and the directionality
    [metadata.IsClient] answers for the client. *)
Theorem new_client_first_Request c0 v load c request opts (m : machine upClient) :
  elem m = newUpClient c0 v load ->
  exists r m',
    upClient_Request c request opts m = Some (r, m') /\
    hd_error (new_events m m') = Some (EvInitFunc c v) /\
    forall c' v' load' b',
      In (EvUp c' v' load' b') (new_events m m') ->
      c' = c /\ v' = v /\ load' = load /\
      b' = IsClient (mkIface ptr_upClient (this m)).
Proof.
  intros E.
  assert (F : initMutex (elem m) = false) by (rewrite E; reflexivity).
  up_request_paths c request opts m F.
  rewrite E in *. cbn [newUpClient vppConn loadIfIndex inited] in *.
  destruct ran; [| destruct Hran as (L & _); discriminate].
  split; [reflexivity |].
  intros c' v' load' b' I.
  destruct p; cbn in I;
    repeat (destruct I as [I | I]; [try discriminate; inversion I; subst; auto |]);
    contradiction.
Qed.

(** X14.  The vpp connection of a peer server.  In every run of Requests and
    Closes on a peer server, each createPeer and each delPeer gets the vpp
    connection the server was made with. *)
Theorem peer_run_uses_vppConn ops (m : machine wireguardPeerServer) :
  exists m' l,
    peer_run ops m = Some (tt, m') /\
    trace m' = trace m ++ l /\
    forall e v, In e l -> peer_vpp e = Some v -> v = peer_vppConn (elem m).
Proof.
  revert m. induction ops as [| op ops IH]; intros m.
  - exists m, []. rewrite app_nil_r. repeat split. intros e v [].
  - destruct op as [c request | c conn]; cbn [peer_run]; unfold bind at 1.
    + destruct (wireguardPeerServer_Request_path c request m)
        as (r & m1 & p & conn & R & T1 & _ & E1 & Hp).
      rewrite R.
      destruct (IH m1) as (m' & l & P & T & A).
      match type of T1 with _ = _ ++ ?x => exists m', (x ++ l) end.
      split; [exact P |].
      split; [rewrite T, T1, app_assoc; reflexivity |].
      intros e v I Ev. apply in_app_or in I. destruct I as [I | I].
      * destruct p; cbn in I; [contradiction | | |]; in_cases I Ev.
      * rewrite <- E1. exact (A e v I Ev).
    + rewrite wireguardPeerServer_Close_eq. cbv zeta.
      destruct (delPeer _ _ _ _ _) as [d w1].
      destruct (nextServerClose _ _ _ _) as [r w2].
      match goal with
      | |- context [peer_run ops ?x] => destruct (IH x) as (m' & l & P & T & A)
      end.
      cbn [elem trace] in T, A.
      match type of T with _ = (_ ++ ?x) ++ _ => exists m', (x ++ l) end.
      split; [exact P |].
      split; [rewrite T, app_assoc; reflexivity |].
      intros e v I Ev. apply in_app_or in I. destruct I as [I | I].
      * cbn in I. in_cases I Ev.
      * exact (A e v I Ev).
Qed.

(** X15.  The calls of a run on an upClient, counted.  In a run of Requests
    and Closes started with the mutex free, initFunc and the continuation's
    Request are each called at most once per Request; up at most as often as
    the continuation's Request; a postponed context is made at most as often
    as up was called, and cancelled as often as made; and the continuation's
    Close is called once per Close of the run and once per postponed
    context. *)
Theorem up_run_accounting ops (m : machine upClient) :
  initMutex (elem m) = false ->
  exists m' l,
    up_run ops m = Some (tt, m') /\
    trace m' = trace m ++ l /\
    initMutex (elem m') = false /\
    count_events is_initFunc l <= List.length (filter is_up_request ops) /\
    count_events is_next_request l <= List.length (filter is_up_request ops) /\
    count_events is_up l <= count_events is_next_request l /\
    count_events is_postponeCtxFunc l <= count_events is_up l /\
    count_events is_cancelClose l = count_events is_postponeCtxFunc l /\
    count_events is_next_close l
    = List.length (filter (fun op => negb (is_up_request op)) ops)
      + count_events is_postponeCtxFunc l.
Proof.
  revert m. induction ops as [| op ops IH]; intros m F.
  - exists m, []. rewrite app_nil_r. cbn. repeat split; (exact F || lia).
  - destruct op as [c request opts | c conn opts];
      cbn [up_run filter is_up_request negb]; unfold bind at 1.
    + destruct (upClient_Request_path c request opts m F)
        as (r & m1 & p & ran & conn & ierr & R & T1 & (_ & _ & _ & _ & F1) & _).
      rewrite R.
      destruct (IH m1 F1) as (m' & l & P & T & F' & N1 & N2 & N3 & N4 & N5 & N6).
      match type of T1 with _ = _ ++ ?x => exists m', (x ++ l) end.
      split; [exact P |].
      split; [rewrite T, T1, app_assoc; reflexivity |].
      split; [exact F' |].
      rewrite !count_events_app. unfold count_events in *.
      destruct p, ran; cbn; repeat split; lia.
    + rewrite upClient_Close_eq.
      destruct (nextClientClose c c conn opts (world m)) as [r w].
      match goal with
      | |- context [up_run ops ?x] =>
        destruct (IH x) as (m' & l & P & T & F' & N1 & N2 & N3 & N4 & N5 & N6);
          [exact F |]
      end.
      cbn [trace] in T.
      exists m', ([EvNextClose c c conn opts] ++ l).
      split; [exact P |].
      split; [rewrite T, app_assoc; reflexivity |].
      split; [exact F' |].
      rewrite !count_events_app. unfold count_events in *.
      cbn. repeat split; lia.
Qed.

End Properties.

(** * The properties at work in the scripted world *)

Lemma upClient_init_latch_witness :
  (exists m',
     upClient_init (C := all_fine) (Live 1) freshUp = Some (None, m') /\
     inited (elem m') = 1%Z /\
     trace m' = [EvInitFunc (Live 1) 7] /\
     forall ctxs,
       init_seq (C := all_fine) ctxs m' = Some (map (fun _ => None) ctxs, m'))
  /\
  (exists m',
     upClient_init (C := init_fails) (Live 1) freshUp = Some (Some boom, m') /\
     inited (elem m') = 0%Z /\
     trace m' = [EvInitFunc (Live 1) 7] /\
     forall c2, exists r m'',
       upClient_init (C := init_fails) c2 m' = Some (r, m'') /\
       trace m'' = trace m' ++ [EvInitFunc c2 (vppConn (elem m'))])
  /\
  init_seq (C := init_fails) [Live 2; Live 3] establishedUp
  = Some ([None; None], establishedUp).
Proof.
  split; [| split].
  - exact (proj1 (upClient_init_latch (C := all_fine))
             (Live 1) freshUp 1 eq_refl eq_refl eq_refl).
  - exact (proj1 (proj2 (upClient_init_latch (C := init_fails)))
             (Live 1) freshUp boom 1 eq_refl eq_refl eq_refl).
  - exact (proj2 (proj2 (upClient_init_latch (C := init_fails)))
             establishedUp [Live 2; Live 3] eq_refl).
Defined.

Lemma upClient_Request_fails_fast_witness :
  upClient_Request (C := init_fails) (Live 1) "request"%string [] freshUp
  = Some ((None, Some boom), uninitedUp) /\
  new_events freshUp uninitedUp = [EvInitFunc (Live 1) 7] /\
  forallb (fun ev => negb (is_continuation_call ev)) (new_events freshUp uninitedUp)
  = true.
Proof.
  exact (upClient_Request_fails_fast (C := init_fails)
           (Live 1) "request"%string [] freshUp uninitedUp boom eq_refl).
Defined.

Lemma Request_rolls_back_with_postponed_context_witness :
  (exists v closeErr m4,
     upClient_Close (C := setup_fails_close_fails) (Postponed (Live 1))
       (Some "conn"%string) []
       (mkMachine 1 (elem initedUp) 3
          (trace initedUp ++ entered (Live 1) "request"%string []
           ++ [EvUp (Live 1) 7 tt true] ++ [EvPostponeCtxFunc (Postponed (Live 1))]))
     = Some ((v, closeErr), m4) /\
     upClient_Request (C := setup_fails_close_fails) (Live 1) "request"%string []
       freshUp
     = Some ((None, Some (rollbackError boom closeErr)),
             mkMachine (this m4) (elem m4) (world m4)
               (trace m4 ++ [EvCancelClose (Postponed (Live 1))])))
  /\
  (exists v closeErr m4,
     wireguardPeerServer_Close (C := setup_fails_close_fails) (Postponed (Live 1))
       (Some "conn"%string)
       (mkMachine 2 (elem freshPeer) 2
          (trace freshPeer ++ entered (Live 1) "request"%string []
           ++ [EvCreatePeer (Live 1) (Some "conn"%string) 7 false]
           ++ [EvPostponeCtxFunc (Postponed (Live 1))]))
     = Some ((v, closeErr), m4) /\
     wireguardPeerServer_Request (C := setup_fails_close_fails) (Live 1)
       "request"%string freshPeer
     = Some ((None, Some (rollbackError boom closeErr)),
             mkMachine (this m4) (elem m4) (world m4)
               (trace m4 ++ [EvCancelClose (Postponed (Live 1))]))).
Proof.
  split.
  - exact (proj1 (Request_rolls_back_with_postponed_context
                    (C := setup_fails_close_fails))
             (Live 1) "request"%string [] freshUp initedUp (Some "conn"%string) 2 boom 3
             eq_refl eq_refl eq_refl).
  - exact (proj1 (proj2 (Request_rolls_back_with_postponed_context
                           (C := setup_fails_close_fails)))
             (Live 1) "request"%string freshPeer (Some "conn"%string) 1 boom 2
             eq_refl eq_refl).
Defined.

(** On a fresh upClient the failable initFunc runs before the context is
    captured: that the capture precedes every failable step of a Request
    fails there. *)
Lemma capture_after_init_counterexample :
  upClient_Request (C := all_fine) (Live 1) "request"%string [] freshUp
  = Some ((Some "conn"%string, None), establishedUp) /\
  hd_error (new_events freshUp establishedUp) = Some (EvInitFunc (Live 1) 7) /\
  failable (EvInitFunc (Live 1) 7) = true /\
  no_failable_before_capture (Live 1) (new_events freshUp establishedUp) = false.
Proof. repeat split. Qed.

Lemma capture_precedes_continuation_witness :
  exists r m' i m1,
    upClient_Request (C := all_fine) (Live 1) "request"%string [] freshUp
    = Some (r, m') /\
    upClient_init (C := all_fine) (Live 1) freshUp = Some (i, m1) /\
    (new_events freshUp m1 = [] \/
     new_events freshUp m1 = [EvInitFunc (Live 1) (vppConn (elem freshUp))]) /\
    match i with
    | Some e => r = (None, Some e) /\ m' = m1
    | None =>
      hd_error (new_events m1 m') = Some (EvContextWithValues (Live 1)) /\
      captured_first (Live 1) (new_events m1 m') = true /\
      new_events freshUp m' = new_events freshUp m1 ++ new_events m1 m'
    end.
Proof.
  exact (proj2 (capture_precedes_continuation (C := all_fine))
           (Live 1) "request"%string [] freshUp eq_refl).
Defined.

(** When the continuation returns nil and nil and the setup action succeeds,
    Request returns nil and nil: neither a Connection nor an error. *)
Lemma Request_nil_nil_counterexample :
  upClient_Request (C := nil_continuation) (Live 1) "request"%string [] freshUp
  = Some ((None, None), establishedUp) /\
  connection_xor_error (None, None) = false.
Proof. split; reflexivity. Qed.

Lemma Request_returns_connection_or_error_witness :
  (exists conn err m',
     upClient_Request (C := setup_fails_close_fails) (Live 1) "request"%string []
       freshUp
     = Some ((conn, err), m') /\
     (conn = None \/ err = None) /\
     conn = None /\
     (exists closeErr, err = Some (rollbackError boom closeErr)) /\
     exists before,
       trace m' = before ++ upClient_rolled_back (Live 1) (Some "conn"%string) [])
  /\
  (exists conn err m',
     wireguardPeerServer_Request (C := setup_fails_close_fails) (Live 1)
       "request"%string freshPeer
     = Some ((conn, err), m') /\
     (conn = None \/ err = None) /\
     conn = None /\
     (exists closeErr, err = Some (rollbackError boom closeErr)) /\
     exists before,
       trace m' = before ++ peer_rolled_back (Live 1) (Some "conn"%string) 7 false).
Proof.
  split.
  - destruct (proj1 (Request_returns_connection_or_error
                       (C := setup_fails_close_fails))
                (Live 1) "request"%string [] freshUp eq_refl)
      as (conn & err & m' & R & X & _ & Y).
    exists conn, err, m'. split; [exact R |]. split; [exact X |].
    exact (Y initedUp (Some "conn"%string) 2 boom 3 eq_refl eq_refl eq_refl).
  - destruct (proj2 (Request_returns_connection_or_error
                       (C := setup_fails_close_fails))
                (Live 1) "request"%string freshPeer)
      as (conn & err & m' & R & X & _ & Y).
    exists conn, err, m'. split; [exact R |]. split; [exact X |].
    exact (Y (Some "conn"%string) 1 boom 2 eq_refl eq_refl).
Defined.

Lemma Request_propagates_continuation_error_witness :
  (exists m',
     upClient_Request (C := continuation_fails) (Live 1) "request"%string [] freshUp
     = Some ((None, Some boom), m') /\
     world m' = 2 /\
     elem m' = elem initedUp /\
     new_events initedUp m' = entered (Live 1) "request"%string [] /\
     forallb (fun ev => negb (is_setup_or_close ev)) (new_events freshUp m') = true)
  /\
  (exists m',
     wireguardPeerServer_Request (C := continuation_fails) (Live 1) "request"%string
       freshPeer
     = Some ((None, Some boom), m') /\
     world m' = 1 /\
     elem m' = elem freshPeer /\
     new_events freshPeer m' = entered (Live 1) "request"%string [] /\
     forallb (fun ev => negb (is_setup_or_close ev)) (new_events freshPeer m') = true).
Proof.
  split.
  - exact (proj1 (Request_propagates_continuation_error (C := continuation_fails))
             (Live 1) "request"%string [] freshUp initedUp None boom 2 eq_refl eq_refl).
  - exact (proj2 (Request_propagates_continuation_error (C := continuation_fails))
             (Live 1) "request"%string freshPeer None boom 1 eq_refl).
Defined.

Lemma peer_directionality_is_stable_witness :
  peer_run (C := all_fine) request_then_close freshPeer = Some (tt, closedPeer) /\
  In (EvCreatePeer (Live 1) (Some "conn"%string) 7 false)
    (new_events freshPeer closedPeer) /\
  In (EvDelPeer (Live 2) (Some "conn"%string) 7 false)
    (new_events freshPeer closedPeer) /\
  false = IsClient (Collaborators := all_fine) (mkIface ptr_wireguardPeerServer 2).
Proof.
  destruct (peer_directionality_is_stable (C := all_fine) request_then_close freshPeer)
    as (m' & R & D).
  assert (E : m' = closedPeer) by (inversion R; reflexivity).
  subst m'.
  assert (I1 : In (EvCreatePeer (Live 1) (Some "conn"%string) 7 false)
                 (new_events freshPeer closedPeer))
    by (simpl; right; right; left; reflexivity).
  assert (I2 : In (EvDelPeer (Live 2) (Some "conn"%string) 7 false)
                 (new_events freshPeer closedPeer))
    by (simpl; right; right; right; left; reflexivity).
  split; [reflexivity |]. split; [exact I1 |]. split; [exact I2 |].
  exact (proj2 (D _ _ _ _ _ _ _ _ I1 I2)).
Defined.

Lemma upClient_init_releases_mutex_witness :
  exists err m',
    upClient_init (C := init_fails) (Live 1) freshUp = Some (err, m') /\
    initMutex (elem m') = false /\
    this m' = 1 /\
    ctx (elem m') = Live 0 /\
    vppConn (elem m') = 7 /\
    loadIfIndex (elem m') = tt /\
    (inited (elem m') = 0%Z \/ inited (elem m') = 1%Z) /\
    (err = None -> (0 < inited (elem m'))%Z).
Proof.
  exact (upClient_init_releases_mutex (C := init_fails) (Live 1) freshUp eq_refl).
Defined.

Lemma up_run_keeps_client_witness :
  exists m',
    up_run (C := setup_fails_close_fails) request_close_request freshUp
    = Some (tt, m') /\
    initMutex (elem m') = false /\
    this m' = 1 /\
    ctx (elem m') = Live 0 /\
    vppConn (elem m') = 7 /\
    loadIfIndex (elem m') = tt /\
    (inited (elem m') = 0%Z \/ inited (elem m') = 1%Z) /\
    ((0 < 0)%Z -> inited (elem m') = 0%Z).
Proof.
  exact (up_run_keeps_client (C := setup_fails_close_fails)
           request_close_request freshUp eq_refl).
Defined.

Lemma up_run_inited_never_inits_witness :
  exists m',
    up_run (C := init_fails) request_close_request establishedUp = Some (tt, m') /\
    elem m' = elem establishedUp /\
    count_events is_initFunc (new_events establishedUp m') = 0.
Proof.
  exact (up_run_inited_never_inits (C := init_fails)
           request_close_request establishedUp eq_refl).
Defined.

Lemma up_run_inits_once_witness :
  exists m' l,
    up_run (C := all_fine) request_close_request freshUp = Some (tt, m') /\
    trace m' = trace freshUp ++ l /\
    count_events is_initFunc l = 1 /\
    inited (elem m') = 1%Z.
Proof.
  exact (up_run_inits_once (C := all_fine) request_close_request freshUp
           (fun _ _ _ => eq_refl) eq_refl eq_refl).
Defined.

Lemma up_run_retries_failed_init_witness :
  exists m' l,
    up_run (C := init_fails) request_close_request freshUp = Some (tt, m') /\
    trace m' = trace freshUp ++ l /\
    count_events is_initFunc l = 2 /\
    count_events is_next_request l = 0 /\
    inited (elem m') = 0%Z.
Proof.
  apply (up_run_retries_failed_init (C := init_fails) request_close_request freshUp).
  - intros c v w. discriminate.
  - reflexivity.
  - reflexivity.
Defined.

Lemma Request_releases_postponed_context_witness :
  exists r m',
    upClient_Request (C := setup_fails_close_fails) (Live 1) "request"%string []
      freshUp = Some (r, m') /\
    count_events is_postponeCtxFunc (new_events freshUp m')
    = count_events is_cancelClose (new_events freshUp m') /\
    count_events is_postponeCtxFunc (new_events freshUp m') <= 1 /\
    (count_events is_postponeCtxFunc (new_events freshUp m') = 1 ->
     last (new_events freshUp m') (EvContextWithValues (Live 1))
     = EvCancelClose (Postponed (Live 1))).
Proof.
  exact (proj1 (Request_releases_postponed_context (C := setup_fails_close_fails))
           (Live 1) "request"%string [] freshUp eq_refl).
Defined.

Lemma Request_closes_only_on_failure_witness :
  exists r m',
    upClient_Request (C := all_fine) (Live 1) "request"%string [] freshUp
    = Some (r, m') /\
    (snd r = None ->
     forallb (fun e => negb (is_close_call e)) (new_events freshUp m') = true) /\
    (existsb is_close_call (new_events freshUp m') = true ->
     exists e ce, r = (None, Some (rollbackError e ce))).
Proof.
  exact (proj1 (Request_closes_only_on_failure (C := all_fine))
           (Live 1) "request"%string [] freshUp eq_refl).
Defined.

Lemma Request_uses_live_then_postponed_context_witness :
  exists r m',
    upClient_Request (C := setup_fails_close_fails) (Live 1) "request"%string []
      freshUp = Some (r, m') /\
    exists l1 l2,
      new_events freshUp m' = l1 ++ l2 /\
      forallb (uses_only (Live 1)) l1 = true /\
      forallb (uses_only (Postponed (Live 1))) l2 = true /\
      (l2 = [] \/ hd_error l2 = Some (EvPostponeCtxFunc (Postponed (Live 1)))).
Proof.
  exact (proj1 (Request_uses_live_then_postponed_context
                  (C := setup_fails_close_fails))
           (Live 1) "request"%string [] freshUp eq_refl).
Defined.

Lemma upClient_Request_enters_initialized_witness :
  exists r m',
    upClient_Request (C := continuation_fails) (Live 1) "request"%string [] freshUp
    = Some (r, m') /\
    (existsb is_next_request (new_events freshUp m') = true ->
     (0 < inited (elem m'))%Z) /\
    (snd r = None -> (0 < inited (elem m'))%Z).
Proof.
  exact (upClient_Request_enters_initialized (C := continuation_fails)
           (Live 1) "request"%string [] freshUp eq_refl).
Defined.

Lemma Request_error_provenance_witness :
  ((exists m1,
      upClient_init (C := setup_fails_close_fails) (Live 1) freshUp
      = Some (Some boom_and_leak, m1))
   \/
   (exists m1 k w2,
      upClient_init (C := setup_fails_close_fails) (Live 1) freshUp
      = Some (None, m1) /\
      nextClientRequest (Collaborators := setup_fails_close_fails)
        (Live 1) (Live 1) "request"%string [] (world m1)
      = ((k, Some boom_and_leak), w2))
   \/
   (exists m1 k w2 e w3,
      upClient_init (C := setup_fails_close_fails) (Live 1) freshUp
      = Some (None, m1) /\
      nextClientRequest (Collaborators := setup_fails_close_fails)
        (Live 1) (Live 1) "request"%string [] (world m1)
      = ((k, None), w2) /\
      up (Collaborators := setup_fails_close_fails) (Live 1)
        (vppConn (elem m1)) (loadIfIndex (elem m1))
        (IsClient (Collaborators := setup_fails_close_fails)
           (mkIface ptr_upClient (this m1))) w2
      = (Some e, w3) /\
      Cause boom_and_leak = Cause e /\
      is_suffix (Error e) (Error boom_and_leak) = true))
  /\
  ((exists k w2,
      nextServerRequest (Collaborators := setup_fails_close_fails)
        (Live 1) (Live 1) "request"%string (world freshPeer)
      = ((k, Some boom_and_leak), w2))
   \/
   (exists k w2 e w3,
      nextServerRequest (Collaborators := setup_fails_close_fails)
        (Live 1) (Live 1) "request"%string (world freshPeer)
      = ((k, None), w2) /\
      createPeer (Collaborators := setup_fails_close_fails) (Live 1) k
        (peer_vppConn (elem freshPeer))
        (IsClient (Collaborators := setup_fails_close_fails)
           (mkIface ptr_wireguardPeerServer (this freshPeer))) w2
      = (Some e, w3) /\
      Cause boom_and_leak = Cause e /\
      is_suffix (Error e) (Error boom_and_leak) = true)).
Proof.
  split.
  - exact (proj1 (Request_error_provenance (C := setup_fails_close_fails))
             (Live 1) "request"%string [] freshUp None boom_and_leak rolledBackUp
             eq_refl).
  - exact (proj2 (Request_error_provenance (C := setup_fails_close_fails))
             (Live 1) "request"%string freshPeer None boom_and_leak rolledBackPeer
             eq_refl).
Defined.

Lemma peer_Close_undoes_Request_witness :
  exists vpp b r m2,
    last (trace establishedPeer) (EvContextWithValues (Live 1))
    = EvCreatePeer (Live 1) (Some "conn"%string) vpp b /\
    wireguardPeerServer_Close (C := all_fine) (Live 2) (Some "conn"%string)
      establishedPeer = Some (r, m2) /\
    new_events establishedPeer m2
    = [EvDelPeer (Live 2) (Some "conn"%string) vpp b;
       EvNextClose (Live 2) (Live 2) (Some "conn"%string) []].
Proof.
  exact (peer_Close_undoes_Request (C := all_fine) (Live 1) "request"%string (Live 2)
           freshPeer establishedPeer (Some "conn"%string) eq_refl).
Defined.

Lemma new_client_first_Request_witness :
  exists r m',
    upClient_Request (C := all_fine) (Live 1) "request"%string [] freshUp
    = Some (r, m') /\
    hd_error (new_events freshUp m') = Some (EvInitFunc (Live 1) 7) /\
    forall c' v' load' b',
      In (EvUp c' v' load' b') (new_events freshUp m') ->
      c' = Live 1 /\ v' = 7 /\ load' = tt /\
      b' = IsClient (Collaborators := all_fine) (mkIface ptr_upClient 1).
Proof.
  exact (new_client_first_Request (C := all_fine)
           (Live 0) 7 tt (Live 1) "request"%string [] freshUp eq_refl).
Defined.

Lemma up_run_accounting_witness :
  exists m' l,
    up_run (C := setup_fails_close_fails) request_close_request freshUp
    = Some (tt, m') /\
    trace m' = trace freshUp ++ l /\
    initMutex (elem m') = false /\
    count_events is_initFunc l <= 2 /\
    count_events is_next_request l <= 2 /\
    count_events is_up l <= count_events is_next_request l /\
    count_events is_postponeCtxFunc l <= count_events is_up l /\
    count_events is_cancelClose l = count_events is_postponeCtxFunc l /\
    count_events is_next_close l = 1 + count_events is_postponeCtxFunc l.
Proof.
  exact (up_run_accounting (C := setup_fails_close_fails)
           request_close_request freshUp eq_refl).
Defined.
